(** * Gallery of Voices to Qualtrics Advanced Format

    A shallow embedding of [qualtrics/csv_to_advanced_format.py]: the
    function [_create_survey], which reads a table of propositions with
    pandas and writes one question block per row, and the command line
    entry point [main].

    The program is a sequence of effects on the file system, so it is
    embedded in a small state and exception monad over a [World] that
    holds the files on disk and the file objects the program has opened.
    A [write] puts text in the buffer of its file object and [close] moves
    the buffer to the disk; a write itself never fails here (the disk is
    not full, every text can be encoded).
    The two libraries the program calls are outside the repository:
    - pandas' CSV reader is a parameter of the development
      ([csv_reader]); what the program sees of it is the [DataFrame] it
      returns or the exception it raises. Where a statement is about the
      text of a field, the reader is [pandas_reader]: the tokenizer and
      the typing of the fields stay parameters, and the one step written
      out is that an empty field is the missing value NaN;
    - argparse is modelled for the one parser [main] builds (two required
      options that take one argument each, and the help flag that
      argparse adds by default). *)

From Stdlib Require Import ZArith Ascii String DecimalString.
From Stdlib Require DecimalPos DecimalZ.
From stdpp Require Import gmap strings list fin_maps.

(** ** Python values and their formatting *)

(** The line feed written as ['\n'] in the source. *)
Definition nl : string := String "010"%char "".

(** What [row[key]] gives in the loop, a cell of the row that [iterrows]
    hands over: text, the missing-value marker NaN (a float), an integer
    or a boolean. A finite float is kept as the text Python prints for
    it. *)
Inductive value : Type :=
  | VStr (s : string)
  | VNaN
  | VInt (z : Z)
  | VBool (b : bool)
  | VFloat (shown : string).

(** [format(z, '')] for a Python int: decimal digits, with a sign when
    negative. *)
Definition py_str_int (z : Z) : string := NilZero.string_of_int (Z.to_int z).

(** A replacement field [{v}] of an f-string: [format(v, '')]. *)
Definition py_format (v : value) : string :=
  match v with
  | VStr s => s
  | VNaN => "nan"
  | VInt z => py_str_int z
  | VBool true => "True"
  | VBool false => "False"
  | VFloat shown => shown
  end.

(** ** Exceptions and the monad *)

Inductive exn : Type :=
  | FileNotFoundError (path : string)
  | IsADirectoryError (path : string)
  | PermissionError (path : string)
  | EmptyDataError
  | ParserError (msg : string)
  | KeyError (key : string)
  | ValueError (msg : string)
  | TypeError (msg : string)
  | SystemExit (code : Z).

(** The exceptions that are subclasses of [OSError]: a file could not be
    opened. *)
Definition is_OSError (e : exn) : bool :=
  match e with
  | FileNotFoundError _ | IsADirectoryError _ | PermissionError _ => true
  | _ => false
  end.

Inductive outcome (A : Type) : Type :=
  | Return (a : A)
  | Raise (e : exn).
Arguments Return {A} a.
Arguments Raise {A} e.

(** An entry of the file system. *)
Inductive node : Type :=
  | Dir
  | File (readable writable : bool) (content : string).

(** A text file object opened for writing: what [write] has accepted and
    not yet passed to the disk sits in [f_buffer]. *)
Record file_obj : Type := mk_file_obj {
  f_path : string;
  f_buffer : string;
  f_closed : bool
}.

Record World : Type := mk_World {
  disk : gmap string node;
  (** the paths at which a new file can be created (the directory exists
      and is writable) *)
  may_create : string → bool;
  (** the file objects created so far; a handle is a position here *)
  files : list file_obj
}.

Definition M (A : Type) : Type := World → outcome A * World.

Definition ret {A} (a : A) : M A := fun w => (Return a, w).
Definition raise {A} (e : exn) : M A := fun w => (Raise e, w).
Definition bind {A B} (m : M A) (k : A → M B) : M B := fun w =>
  match m w with
  | (Return a, w') => k a w'
  | (Raise e, w') => (Raise e, w')
  end.

(** [try: m finally: h], the shape of a [with] statement: [h] runs on both
    exits of [m], and the exception of [m], if any, goes on. *)
Definition finally {A} (m : M A) (h : M unit) : M A := fun w =>
  match m w with
  | (Return a, w') =>
      match h w' with
      | (Return _, w'') => (Return a, w'')
      | (Raise e, w'') => (Raise e, w'')
      end
  | (Raise e, w') =>
      match h w' with
      | (Return _, w'') => (Raise e, w'')
      | (Raise e', w'') => (Raise e', w'')
      end
  end.

Declare Scope py_scope.
Delimit Scope py_scope with py.
Notation "'let*' x ':=' m 'in' k" := (bind m (fun x => k))
  (at level 10, x name, m at level 100, k at level 200) : py_scope.
Notation "m >> k" := (bind m (fun _ => k))
  (at level 100, k at level 200, right associativity) : py_scope.
Local Open Scope py_scope.

(** ** Files *)

Definition file_content (w : World) (path : string) : option string :=
  match disk w !! path with
  | Some (File _ _ content) => Some content
  | _ => None
  end.

Definition set_disk (d : gmap string node) (w : World) : World :=
  mk_World d (may_create w) (files w).
Definition set_files (fs : list file_obj) (w : World) : World :=
  mk_World (disk w) (may_create w) fs.

(** [open(path, 'w')]: an existing file is truncated, a missing one is
    created where that is possible; the result is a handle on a fresh file
    object. *)
Definition open_w (path : string) : M nat := fun w =>
  match disk w !! path with
  | Some Dir => (Raise (IsADirectoryError path), w)
  | Some (File rd wr _) =>
      if wr then
        (Return (length (files w)),
         set_files (files w ++ [mk_file_obj path "" false])
           (set_disk (<[path := File rd true ""]> (disk w)) w))
      else (Raise (PermissionError path), w)
  | None =>
      if may_create w path then
        (Return (length (files w)),
         set_files (files w ++ [mk_file_obj path "" false])
           (set_disk (<[path := File true true ""]> (disk w)) w))
      else (Raise (FileNotFoundError path), w)
  end.

(** [f.write(s)]: [s] goes to the buffer of the file object. The write
    of a text that the encoding of the file cannot encode, which raises
    [UnicodeEncodeError], is not modelled: the output is taken to be
    opened with an encoding that has every character written. *)
Definition write (h : nat) (s : string) : M unit := fun w =>
  match files w !! h with
  | Some f =>
      if f_closed f then (Raise (ValueError "I/O operation on closed file."), w)
      else (Return tt,
            set_files (<[h := mk_file_obj (f_path f) (f_buffer f +:+ s) false]> (files w)) w)
  | None => (Raise (ValueError "no such file object"), w)
  end.

(** The buffer of a file object goes to the end of its file on disk. *)
Definition flush_to (f : file_obj) (d : gmap string node) : gmap string node :=
  match d !! f_path f with
  | Some (File rd wr content) => <[f_path f := File rd wr (content +:+ f_buffer f)]> d
  | _ => d
  end.

(** [f.close()], which the [with] statement calls on exit: flush, then
    mark the object closed. Closing a closed file does nothing. *)
Definition close (h : nat) : M unit := fun w =>
  match files w !! h with
  | Some f =>
      if f_closed f then (Return tt, w)
      else (Return tt,
            set_files (<[h := mk_file_obj (f_path f) "" true]> (files w))
              (set_disk (flush_to f (disk w)) w))
  | None => (Return tt, w)
  end.

(** [with open(output, 'w') as output_file: body]. *)
Definition with_open_w {A} (path : string) (body : nat → M A) : M A :=
  let* output_file := open_w path in
  finally (body output_file) (close output_file).

(** ** The table pandas returns *)

(** The [DataFrame] that [read_csv] builds with [index_col=False], as the
    loop sees it through [iterrows]: the column labels of the header and
    the rows in file order, indexed 0, 1, 2, ... The cells of a row are
    those of the [Series] that [iterrows] hands over, that is, after pandas
    has brought the row to one dtype: in a table whose columns are all
    numeric, with a float column among them, an integer cell is a float
    here. *)
Record DataFrame : Type := mk_DataFrame {
  columns : list string;
  data : list (list value)
}.

(** A row as [iterrows] hands it over: the cells under the column
    labels. *)
Definition Series : Type := list (string * value).

Definition iterrows (props : DataFrame) : list (Z * Series) :=
  imap (fun i cells => (Z.of_nat i, zip (columns props) cells)) (data props).

Fixpoint label_lookup (row : Series) (key : string) : option value :=
  match row with
  | [] => None
  | (label, v) :: row' => if String.eqb label key then Some v else label_lookup row' key
  end.

(** [row[key]]: the cell under the label, [KeyError] where the row has no
    such label. *)
Definition getitem (row : Series) (key : string) : M value :=
  match label_lookup row key with
  | Some v => ret v
  | None => raise (KeyError key)
  end.

(** pandas gives every row one cell per column and never repeats a label
    (it renames a repeated header cell). *)
Definition well_formed (props : DataFrame) : bool :=
  forallb (fun cells => Nat.eqb (length cells) (length (columns props))) (data props)
  && bool_decide (NoDup (columns props)).

Definition required_columns : list string := ["topic"; "opinion"; "comment"].

Definition is_required (key : string) : bool :=
  existsb (String.eqb key) required_columns.

Definition has_column (props : DataFrame) (key : string) : bool :=
  existsb (String.eqb key) (columns props).

(** A valid input table: a well formed frame whose header has the three
    columns the converter reads. *)
Definition valid_table (props : DataFrame) : bool :=
  well_formed props && forallb (has_column props) required_columns.

(** The first of the required columns, in the order the converter reads
    them, that the header lacks. *)
Definition first_missing (props : DataFrame) : option string :=
  List.find (fun key => negb (has_column props key)) required_columns.

(** ** What pandas makes of the text of a file *)

(** The file as the tokenizer of pandas splits it, under the defaults of
    the call: the column labels, and for each data line, in file order, the
    text of its fields, one per column (a short line is filled up with
    empty fields). *)
Record RawTable : Type := mk_RawTable {
  header : list string;
  fields : list (list string)
}.

Section Pandas.

(** The tokenizer: separators, quotes, line ends, the names of the
    columns. *)
Variable tokenize : string → exn + RawTable.

(** The cell that [iterrows] hands over for a field that is not empty, at
    a row and a column of the table: whether pandas reads the column as
    numbers, booleans or text, how it reads a number, which other texts it
    takes for a missing value, and the dtype it brings the row to. *)
Variable typed : RawTable → nat → nat → string → value.

(** An empty field is a missing value, NaN, in every column: the empty
    text is among the default [na_values], and the call leaves
    [na_filter] and [keep_default_na] as they are. *)
Definition cell_value (raw : RawTable) (i j : nat) (field : string) : value :=
  if String.eqb field "" then VNaN else typed raw i j field.

Definition frame_of (raw : RawTable) : DataFrame :=
  mk_DataFrame (header raw)
    (imap (fun i line => imap (cell_value raw i) line) (fields raw)).

Definition pandas_reader (text : string) : exn + DataFrame :=
  match tokenize text with
  | inl e => inl e
  | inr raw => inr (frame_of raw)
  end.

End Pandas.

(** The tokenizer gave every line one field per column, no label twice,
    and the three labels the converter reads. *)
Definition valid_raw (raw : RawTable) : bool :=
  forallb (fun line => Nat.eqb (length line) (length (header raw))) (fields raw)
  && bool_decide (NoDup (header raw))
  && forallb (fun key => existsb (String.eqb key) (header raw)) required_columns.

(** ** The command line *)

(** argparse for the parser that [main] builds: [ArgumentParser] with its
    defaults, so with the help flag [-h]/[--help] and with abbreviations of
    long options, and the two options [--input_csv] and [--output_txt],
    both [required=True] and both taking one argument. Covered: words,
    [-h], long options written in full, abbreviated or with [=value], and
    the terminator [--], as CPython 3.11 reads them. A token that glues
    text to [-h] is a cluster of short flags: it is the help flag again
    and again where the text is made of [h] only, and an error otherwise.
    An argument given with [=] that is exactly [--] is dropped, and the
    attribute is then the empty list. *)
Module argparse.

Inductive option_name : Type := Help | InputCsv | OutputTxt.


Definition long_options : list (string * option_name) :=
  [("--help", Help); ("--input_csv", InputCsv); ("--output_txt", OutputTxt)].

(** How the parser reads one token of the command line: an argument word,
    an occurrence of an option (with the text after [=], if any), an option
    it does not know, or an abbreviation that fits several options. *)
Inductive arg_class : Type :=
  | Word
  | Opt (o : option_name) (explicit : option string)
  | Unrecognized
  | Ambiguous.

(** [arg_string.split('=', 1)], with no second part where there is no
    [=]. *)
Fixpoint split_eq (s : string) : string * option string :=
  match s with
  | "" => ("", None)
  | String c s' =>
      if Ascii.eqb c "=" then ("", Some s')
      else let '(name, explicit) := split_eq s' in (String c name, explicit)
  end.

Definition exact_long (name : string) : option option_name :=
  snd <$> List.find (fun lo => String.eqb (fst lo) name) long_options.

(** The long options that start with [name]. *)
Definition abbreviated (name : string) : list option_name :=
  snd <$> List.filter (fun lo => String.prefix name (fst lo)) long_options.

Definition is_digit (c : ascii) : bool :=
  (48 <=? nat_of_ascii c)%nat && (nat_of_ascii c <=? 57)%nat.

Fixpoint all_digits (s : string) : bool :=
  match s with
  | "" => true
  | String c s' => is_digit c && all_digits s'
  end.

(** What follows the dash in a negative number: digits, or digits, a dot
    and at least one digit. *)
Fixpoint number_tail (s : string) (seen_digit : bool) : bool :=
  match s with
  | "" => seen_digit
  | String c s' =>
      if is_digit c then number_tail s' true
      else if Ascii.eqb c "." then
        match s' with "" => false | _ => all_digits s' end
      else false
  end.

Fixpoint has_space (s : string) : bool :=
  match s with
  | "" => false
  | String c s' => Ascii.eqb c " " || has_space s'
  end.

Definition parse_optional (arg : string) : arg_class :=
  match arg with
  | "" => Word
  | String c rest =>
      if negb (Ascii.eqb c "-") then Word
      else if String.eqb arg "-h" then Opt Help None
      else match exact_long arg with
      | Some o => Opt o None
      | None =>
          match rest with
          | "" => Word
          | String c' rest' =>
              let '(name, explicit) := split_eq arg in
              if Ascii.eqb c' "-" then
                match abbreviated name with
                | [o] => Opt o explicit
                | _ :: _ :: _ => Ambiguous
                | [] => if has_space arg then Word else Unrecognized
                end
              else if Ascii.eqb c' "h" then
                Opt Help (Some (match explicit with
                                | Some e => if String.eqb name "-h" then e else rest'
                                | None => rest'
                                end))
              else if number_tail rest false || has_space arg then Word
              else Unrecognized
          end
      end
  end.

Definition is_word (arg : string) : bool :=
  negb (String.eqb arg "--")
  && match parse_optional arg with Word => true | _ => false end.

(** What an attribute of the namespace holds: the argument, a [str], or
    the empty list that is left when the argument [--] is dropped. *)
Inductive arg_value : Type :=
  | Str (s : string)
  | EmptyList.

(** The value of an argument attached with [=]. *)
Definition explicit_value (v : string) : arg_value :=
  if String.eqb v "--" then EmptyList else Str v.

(** The token begins with one dash only. *)
Definition short_option (arg : string) : bool :=
  match arg with
  | String _ (String c _) => negb (Ascii.eqb c "-")
  | _ => false
  end.

Fixpoint all_h (s : string) : bool :=
  match s with
  | "" => true
  | String c s' => Ascii.eqb c "h" && all_h s'
  end.

(** An occurrence of the help flag prints the help and exits: [-h] and
    [--help] alone, and a cluster [-hh...h]. Text attached in any other
    way is an argument the flag does not take, an error. *)
Definition help_fires (arg : string) (explicit : option string) : bool :=
  match explicit with
  | None => true
  | Some e => short_option arg && negb (String.eqb e "") && all_h e
  end.

(** The attributes collected so far, and the tokens nothing has taken. *)
Record partial : Type := mk_partial {
  p_input_csv : option arg_value;
  p_output_txt : option arg_value;
  p_extras : list string
}.

Definition store (o : option_name) (v : arg_value) (ns : partial) : partial :=
  match o with
  | InputCsv => mk_partial (Some v) (p_output_txt ns) (p_extras ns)
  | OutputTxt => mk_partial (p_input_csv ns) (Some v) (p_extras ns)
  | Help => ns
  end.

Definition add_extras (args : list string) (ns : partial) : partial :=
  mk_partial (p_input_csv ns) (p_output_txt ns) (p_extras ns ++ args).

(** One pass over the tokens, left to right. The help flag prints the help
    and exits with status 0 where it stands; an option without its
    argument, and a help flag with one, is an error, status 2. *)
Fixpoint consume (args : list string) (ns : partial) : Z + partial :=
  match args with
  | [] => inr ns
  | arg :: rest =>
      if String.eqb arg "--" then inr (add_extras args ns)
      else match parse_optional arg with
      | Word | Unrecognized => consume rest (add_extras [arg] ns)
      | Ambiguous => inl 2%Z
      | Opt Help explicit => if help_fires arg explicit then inl 0%Z else inl 2%Z
      | Opt o (Some v) => consume rest (store o (explicit_value v) ns)
      | Opt o None =>
          match rest with
          | v :: rest' =>
              if is_word v then consume rest' (store o (Str v) ns) else inl 2%Z
          | [] => inl 2%Z
          end
      end
  end.

(** The tokens are classified before any of them is acted on, and an
    ambiguous abbreviation in front of the terminator is an error then. *)
Fixpoint ambiguous_token (args : list string) : bool :=
  match args with
  | [] => false
  | arg :: rest =>
      if String.eqb arg "--" then false
      else match parse_optional arg with
      | Ambiguous => true
      | _ => ambiguous_token rest
      end
  end.

Record Namespace : Type := mk_Namespace {
  input_csv : arg_value;
  output_txt : arg_value
}.

(** [parser.parse_args()]: the namespace, or the status of the exit. A
    required option that never occurred and a token nothing took are
    errors, status 2. *)
Definition parse_args (argv : list string) : Z + Namespace :=
  if ambiguous_token argv then inl 2%Z
  else match consume argv (mk_partial None None []) with
  | inl status => inl status
  | inr ns =>
      match p_input_csv ns, p_output_txt ns, p_extras ns with
      | Some i, Some o, [] => inr (mk_Namespace i o)
      | _, _, _ => inl 2%Z
      end
  end.




End argparse.

(** ** The converter *)

Section Converter.

(** pandas' CSV parser, from the text of a file to a frame or an
    exception ([EmptyDataError], [ParserError], ...). *)
Variable csv_reader : string → exn + DataFrame.

(** [pd.read_csv(filename, index_col=False)]. *)
Definition read_csv (filename : string) : M DataFrame := fun w =>
  match disk w !! filename with
  | None => (Raise (FileNotFoundError filename), w)
  | Some Dir => (Raise (IsADirectoryError filename), w)
  | Some (File rd _ text) =>
      if rd then
        match csv_reader text with
        | inr props => (Return props, w)
        | inl e => (Raise e, w)
        end
      else (Raise (PermissionError filename), w)
  end.

(** The [for index, row in props.iterrows()] loop; [separator] is the local
    variable of that name, which every turn leaves at two line feeds. *)
Fixpoint for_rows (output_file : nat) (rows : list (Z * Series))
    (separator : string) : M unit :=
  match rows with
  | [] => ret tt
  | (index, row) :: rows' =>
      write output_file separator >>
      write output_file ("[[Question:TextEntry:Essay]]" +:+ nl) >>
      write output_file ("[[ID:GOV" +:+ py_str_int index +:+ "]]" +:+ nl) >>
      let* topic := getitem row "topic" in
      write output_file
        ("<h4><strong>Topic:</strong> " +:+ py_format topic +:+ "</h4>" +:+ nl
         +:+ "<br/>" +:+ nl) >>
      let* opinion := getitem row "opinion" in
      write output_file
        ("<h3><strong>Opinion:</strong> " +:+ py_format opinion +:+ "</h3>" +:+ nl
         +:+ "<br/>" +:+ nl) >>
      let* comment := getitem row "comment" in
      write output_file
        ("<p><strong>&ldquo;" +:+ py_format comment +:+ "&rdquo;</strong></p>") >>
      for_rows output_file rows' (nl +:+ nl)
  end.

Definition _create_survey (filename output : string) : M unit :=
  let* props := read_csv filename in
  with_open_w output (fun output_file =>
    write output_file ("[[AdvancedFormat]]" +:+ nl +:+ nl) >>
    write output_file ("[[Block:GOVBlock]]" +:+ nl +:+ nl) >>
    for_rows output_file (iterrows props) "").

(** [main()], on the arguments that follow the program name. The call
    [_create_survey(args.input_csv, args.output_txt)] gets two [str] but
    for an attribute that is the empty list: [pd.read_csv([])] raises
    [ValueError], and [open([], 'w')], which comes after the table is read,
    raises [TypeError]. *)
Definition main (argv : list string) : M unit :=
  match argparse.parse_args argv with
  | inl status => raise (SystemExit status)
  | inr args =>
      match argparse.input_csv args, argparse.output_txt args with
      | argparse.Str filename, argparse.Str output =>
          _create_survey filename output
      | argparse.EmptyList, _ =>
          raise (ValueError "Invalid file path or buffer object type: <class 'list'>")
      | argparse.Str filename, argparse.EmptyList =>
          let* props := read_csv filename in
          raise (TypeError "expected str, bytes or os.PathLike object, not list")
      end
  end.

End Converter.

(** ** The text of the output *)

(** The two writes in front of the loop. *)
Definition preamble : string :=
  ("[[AdvancedFormat]]" +:+ nl +:+ nl) +:+ ("[[Block:GOVBlock]]" +:+ nl +:+ nl).

(** The last value of the variable [separator]: a blank line. *)
Definition blank_line : string := nl +:+ nl.

Definition question_line : string := "[[Question:TextEntry:Essay]]" +:+ nl.

Definition id_line (index : Z) : string :=
  "[[ID:GOV" +:+ py_str_int index +:+ "]]" +:+ nl.

Definition topic_lines (topic : string) : string :=
  "<h4><strong>Topic:</strong> " +:+ topic +:+ "</h4>" +:+ nl +:+ "<br/>" +:+ nl.

Definition opinion_lines (opinion : string) : string :=
  "<h3><strong>Opinion:</strong> " +:+ opinion +:+ "</h3>" +:+ nl +:+ "<br/>" +:+ nl.

Definition comment_line (comment : string) : string :=
  "<p><strong>&ldquo;" +:+ comment +:+ "&rdquo;</strong></p>".

(** The five writes of one turn of the loop after the separator, with the
    three texts that fill the replacement fields. *)
Definition template (index : Z) (topic opinion comment : string) : string :=
  question_line +:+ id_line index +:+ topic_lines topic +:+ opinion_lines opinion
  +:+ comment_line comment.

(** The block of a row, where the row has the three labels. *)
Definition render_block (ir : Z * Series) : option string :=
  match label_lookup ir.2 "topic", label_lookup ir.2 "opinion",
        label_lookup ir.2 "comment" with
  | Some topic, Some opinion, Some comment =>
      Some (template ir.1 (py_format topic) (py_format opinion) (py_format comment))
  | _, _, _ => None
  end.

(** What one turn of the loop writes after the separator, and the
    exception that ends it early, if any. *)
Definition written_by_row (index : Z) (row : Series) : string * option exn :=
  match label_lookup row "topic" with
  | None => (question_line +:+ id_line index, Some (KeyError "topic"))
  | Some topic =>
      match label_lookup row "opinion" with
      | None =>
          (question_line +:+ id_line index +:+ topic_lines (py_format topic),
           Some (KeyError "opinion"))
      | Some opinion =>
          match label_lookup row "comment" with
          | None =>
              (question_line +:+ id_line index +:+ topic_lines (py_format topic)
               +:+ opinion_lines (py_format opinion),
               Some (KeyError "comment"))
          | Some comment =>
              (template index (py_format topic) (py_format opinion)
                 (py_format comment), None)
          end
      end
  end.

(** What the loop writes from a given value of [separator] on. *)
Fixpoint written_by_rows (separator : string) (rows : list (Z * Series))
    : string * option exn :=
  match rows with
  | [] => ("", None)
  | (index, row) :: rows' =>
      match written_by_row index row with
      | (text, Some e) => (separator +:+ text, Some e)
      | (text, None) =>
          let '(text', e) := written_by_rows blank_line rows' in
          (separator +:+ text +:+ text', e)
      end
  end.

Definition result_of (e : option exn) : outcome unit :=
  match e with
  | None => Return tt
  | Some e => Raise e
  end.

(** [s.split('\n')]. *)
Fixpoint lines (s : string) : list string :=
  match s with
  | "" => [""]
  | String c s' =>
      if Ascii.eqb c "010" then "" :: lines s'
      else match lines s' with
           | l :: ls => String c l :: ls
           | [] => [String c ""]
           end
  end.

Fixpoint no_newline (s : string) : bool :=
  match s with
  | "" => true
  | String c s' => negb (Ascii.eqb c "010") && no_newline s'
  end.

(** The characters with a meaning in the markup of the output. *)
Definition markup_char (c : ascii) : bool :=
  Ascii.eqb c "<" || Ascii.eqb c ">" || Ascii.eqb c "&".

Fixpoint markup_free (s : string) : bool :=
  match s with
  | "" => true
  | String c s' => negb (markup_char c) && markup_free s'
  end.

(** The input path does not name a file that can be read. *)
Definition unreadable (w : World) (path : string) : bool :=
  match disk w !! path with
  | Some (File true _ _) => false
  | _ => true
  end.

(** [open(path, 'w')] will succeed. *)
Definition can_open (w : World) (path : string) : bool :=
  match disk w !! path with
  | Some Dir => false
  | Some (File _ wr _) => wr
  | None => may_create w path
  end.

(** The file object [h] is open on [path] with [buffer] pending. *)
Definition is_open (w : World) (h : nat) (path buffer : string) : Prop :=
  files w !! h = Some (mk_file_obj path buffer false).

(** The world in which the open file object [h] holds [buffer]. *)
Definition put (h : nat) (path buffer : string) (w : World) : World :=
  set_files (<[h := mk_file_obj path buffer false]> (files w)) w.

(** The text of the cell under a label, empty where there is none. *)
Definition cell_text (row : Series) (key : string) : string :=
  match label_lookup row key with
  | Some v => py_format v
  | None => ""
  end.

(** What a turn of the loop has written after the identifier line when
    the lookup of [key] fails. *)
Definition fields_before (key : string) (row : Series) : string :=
  if String.eqb key "topic" then ""
  else if String.eqb key "opinion" then topic_lines (cell_text row "topic")
  else topic_lines (cell_text row "topic") +:+ opinion_lines (cell_text row "opinion").

(** ** A reader for plain tables *)

(** A stand-in for pandas on plain files: comma-separated fields without
    quotes, distinct header cells, and no column of numbers or booleans
    (every field that is not a missing value is taken as text). It is used
    for the concrete runs below, not in the statements about the
    converter. *)
Module plain.

(** Line ends: [\r\n] and a lone [\r] count as [\n]. *)
Fixpoint line_ends (s : string) : string :=
  match s with
  | "" => ""
  | String c s' =>
      if Ascii.eqb c "013" then
        match s' with
        | String c' s'' =>
            if Ascii.eqb c' "010" then String "010" (line_ends s'')
            else String "010" (line_ends s')
        | "" => String "010" ""
        end
      else String c (line_ends s')
  end.

Fixpoint split (sep : ascii) (s : string) : list string :=
  match s with
  | "" => [""]
  | String c s' =>
      if Ascii.eqb c sep then "" :: split sep s'
      else match split sep s' with
           | piece :: pieces => String c piece :: pieces
           | [] => [String c ""]
           end
  end.

(** A header cell without text gets the name pandas gives it. *)
Definition label (j : nat) (cell : string) : string :=
  if String.eqb cell "" then "Unnamed: " +:+ py_str_int (Z.of_nat j) else cell.

(** A line brought to [n] fields: filled up with empty fields, or cut. *)
Definition fit (n : nat) (line : list string) : list string :=
  take n (line ++ replicate (n - length line) "").

(** Blank lines are skipped. The first data line may be longer than the
    header; a later line longer than both is an error. With
    [index_col=False] the fields beyond the header are dropped. *)
Definition tokenize (text : string) : exn + RawTable :=
  match List.filter (fun l => negb (String.eqb l "")) (split "010" (line_ends text)) with
  | [] => inl EmptyDataError
  | head :: rest =>
      let labels := imap label (split "," head) in
      let lines := split "," <$> rest in
      let width := Nat.max (length labels)
                     (match lines with line :: _ => length line | [] => 0 end) in
      if forallb (fun line => length line <=? width)%nat lines then
        inr (mk_RawTable labels (fit (length labels) <$> lines))
      else inl (ParserError "Error tokenizing data")
  end.

(** The texts, other than the empty one, that pandas takes for a missing
    value. *)
Definition na_values : list string :=
  ["#N/A"; "#N/A N/A"; "#NA"; "-1.#IND"; "-1.#QNAN"; "-NaN"; "-nan";
   "1.#IND"; "1.#QNAN"; "<NA>"; "N/A"; "NA"; "NULL"; "NaN"; "None"; "n/a";
   "nan"; "null"].

Definition typed (_ : RawTable) (_ _ : nat) (field : string) : value :=
  if existsb (String.eqb field) na_values then VNaN else VStr field.

Definition reader : string → exn + DataFrame := pandas_reader tokenize typed.

End plain.

(** ** Example worlds *)

Definition gov_csv : string :=
  "topic,opinion,comment" +:+ nl +:+
  "Climate,Pro,It's real" +:+ nl +:+
  "Tax,Con,Too high" +:+ nl.

Definition gov_frame : DataFrame :=
  mk_DataFrame ["topic"; "opinion"; "comment"]
    [[VStr "Climate"; VStr "Pro"; VStr "It's real"];
     [VStr "Tax"; VStr "Con"; VStr "Too high"]].

(** A world with one readable file and a directory in which [out.txt] can
    be created. *)
Definition world_with (text : string) : World :=
  mk_World {[ "in.csv" := File true false text ]}
    (fun path => String.eqb path "out.txt") [].

(** The output that the specification gives for this table, line by line;
    the last line has no line feed after it. *)
Definition gov_output : string :=
  String.concat nl
    ["[[AdvancedFormat]]";
     "";
     "[[Block:GOVBlock]]";
     "";
     "[[Question:TextEntry:Essay]]";
     "[[ID:GOV0]]";
     "<h4><strong>Topic:</strong> Climate</h4>";
     "<br/>";
     "<h3><strong>Opinion:</strong> Pro</h3>";
     "<br/>";
     "<p><strong>&ldquo;It's real&rdquo;</strong></p>";
     "";
     "[[Question:TextEntry:Essay]]";
     "[[ID:GOV1]]";
     "<h4><strong>Topic:</strong> Tax</h4>";
     "<br/>";
     "<h3><strong>Opinion:</strong> Con</h3>";
     "<br/>";
     "<p><strong>&ldquo;Too high&rdquo;</strong></p>"].

(** A table without the column [topic]. *)
Definition no_topic_csv : string :=
  "opinion,comment" +:+ nl +:+ "Pro,It's real" +:+ nl.

Definition no_topic_frame : DataFrame :=
  mk_DataFrame ["opinion"; "comment"] [[VStr "Pro"; VStr "It's real"]].

(** The same header and no rows. *)
Definition no_topic_header_csv : string := "opinion,comment" +:+ nl.

(** A table with an empty cell under [opinion]. *)
Definition empty_cell_csv : string :=
  "topic,opinion,comment" +:+ nl +:+ "Climate,,It's real" +:+ nl.

Definition empty_cell_frame : DataFrame :=
  mk_DataFrame ["topic"; "opinion"; "comment"]
    [[VStr "Climate"; VNaN; VStr "It's real"]].

(** A header and no rows. *)
Definition header_only_csv : string := "topic,opinion,comment" +:+ nl.

(** ** Tables that differ outside the required columns *)

#[global] Instance value_eq_dec : EqDecision value.
Proof. solve_decision. Defined.

(** Two rows hold the same cells under topic, opinion and comment. *)
Definition rows_agree (row1 row2 : Series) : bool :=
  forallb (fun key => bool_decide (label_lookup row1 key = label_lookup row2 key))
    required_columns.

(** Two frames have as many rows, and row by row the same cells under the
    three required columns; other columns and the order of the columns are
    free. *)
Definition agree_on_required (props1 props2 : DataFrame) : bool :=
  Nat.eqb (length (data props1)) (length (data props2))
  && forallb (fun cc => rows_agree (zip (columns props1) cc.1)
                          (zip (columns props2) cc.2))
       (zip (data props1) (data props2)).

(** The table of the example with one more column and the columns in
    another order. *)
Definition gov_wide_csv : string :=
  "source,comment,topic,opinion" +:+ nl +:+
  "web,It's real,Climate,Pro" +:+ nl +:+
  "mail,Too high,Tax,Con" +:+ nl.

Definition gov_wide_frame : DataFrame :=
  mk_DataFrame ["source"; "comment"; "topic"; "opinion"]
    [[VStr "web"; VStr "It's real"; VStr "Climate"; VStr "Pro"];
     [VStr "mail"; VStr "Too high"; VStr "Tax"; VStr "Con"]].

(** A world with both tables, a file no one may write, and an output file
    left by an earlier run. *)
Definition world_two : World :=
  mk_World
    (<["in.csv" := File true false gov_csv]>
       (<["wide.csv" := File true false gov_wide_csv]>
          (<["old.txt" := File true true "left over"]> ∅)))
    (fun path => String.eqb path "out.txt") [].

(** A table the reader refuses: no line at all. *)
Definition world_empty_input : World := world_with "".

(** The cells of every row under topic, opinion and comment are text or
    missing values. *)
Definition text_cells (props : DataFrame) : bool :=
  forallb (fun cells =>
    forallb (fun key =>
      match label_lookup (zip (columns props) cells) key with
      | Some (VStr _) | Some VNaN | None => true
      | _ => false
      end) required_columns) (data props).

(** The block of the row at position [k] as the specification lays it out
    (section 4.1, step 4), with its own line feed character and the
    decimal printer of the standard library: what the code writes is
    compared with it. *)
Definition expected_block (k : nat) (topic opinion comment : string) : string :=
  String.concat (String "010" "")
    ["[[Question:TextEntry:Essay]]";
     "[[ID:GOV" +:+ NilZero.string_of_int (Z.to_int (Z.of_nat k)) +:+ "]]";
     "<h4><strong>Topic:</strong> " +:+ topic +:+ "</h4>";
     "<br/>";
     "<h3><strong>Opinion:</strong> " +:+ opinion +:+ "</h3>";
     "<br/>";
     "<p><strong>&ldquo;" +:+ comment +:+ "&rdquo;</strong></p>"].

(** The table of [empty_cell_csv] as the tokenizer splits it. *)
Definition empty_cell_raw : RawTable :=
  mk_RawTable ["topic"; "opinion"; "comment"] [["Climate"; ""; "It's real"]].

(** ** Strings *)

Lemma app_assoc_s (a b c : string) : (a +:+ b) +:+ c = a +:+ (b +:+ c).
Proof.
  induction a as [|x a IH]; [reflexivity|].
  cbn [String.app]. unfold String.app in *. cbn. by rewrite IH.
Qed.

Lemma app_nil_r_s (a : string) : a +:+ "" = a.
Proof.
  induction a as [|x a IH]; [reflexivity|].
  unfold String.app in *. cbn. by rewrite IH.
Qed.

Lemma lines_app_nl (a b : string) :
  no_newline a = true → lines (a +:+ nl +:+ b) = a :: lines b.
Proof.
  induction a as [|x a IH]; intros Hn.
  - reflexivity.
  - cbn in Hn. apply andb_true_iff in Hn as [Hx Ha].
    unfold String.app in *. cbn [append lines].
    apply negb_true_iff in Hx. rewrite Hx. by rewrite (IH Ha).
Qed.

Lemma no_newline_app (a b : string) :
  no_newline a = true → no_newline b = true → no_newline (a +:+ b) = true.
Proof.
  induction a as [|x a IH]; intros Ha Hb; [done|].
  cbn in Ha. apply andb_true_iff in Ha as [Hx Ha].
  unfold String.app in *. cbn. rewrite Hx. by apply IH.
Qed.

Lemma no_newline_uint (d : Decimal.uint) :
  no_newline (NilEmpty.string_of_uint d) = true.
Proof. induction d; cbn; done. Qed.

Lemma no_newline_py_str_int (z : Z) : no_newline (py_str_int z) = true.
Proof.
  unfold py_str_int. destruct (Z.to_int z) as [d|d]; cbn.
  - destruct d; try done; apply (no_newline_uint (_ _)).
  - destruct d; try done; apply (no_newline_uint (_ _)).
Qed.

Ltac text_eq :=
  unfold template, preamble, question_line, id_line, topic_lines,
    opinion_lines, comment_line;
  rewrite ?app_assoc_s; try reflexivity.

(** ** Rows and their labels *)

Lemma label_lookup_zip cols : ∀ cells key,
  existsb (String.eqb key) cols = true →
  length cells = length cols →
  is_Some (label_lookup (zip cols cells) key).
Proof.
  induction cols as [|c cols IH]; intros [|v cells] key Hin Hlen;
    try discriminate.
  cbn in *. rewrite String.eqb_sym.
  destruct (String.eqb key c); [by eexists|].
  apply IH; [done | lia].
Qed.

Lemma label_lookup_missing cols : ∀ cells key,
  existsb (String.eqb key) cols = false →
  label_lookup (zip cols cells) key = None.
Proof.
  induction cols as [|c cols IH]; intros [|v cells] key Hin; try done.
  cbn in *. rewrite String.eqb_sym.
  apply orb_false_iff in Hin as [-> Hin]. by apply IH.
Qed.

Lemma iterrows_lookup props k :
  iterrows props !! k =
  (fun cells => (Z.of_nat k, zip (columns props) cells)) <$> data props !! k.
Proof. unfold iterrows. apply list_lookup_imap. Qed.

Lemma iterrows_length props : length (iterrows props) = length (data props).
Proof. unfold iterrows. apply length_imap. Qed.

Lemma well_formed_row props k cells :
  well_formed props = true →
  data props !! k = Some cells →
  length cells = length (columns props).
Proof.
  unfold well_formed. intros Hwf Hk.
  apply andb_true_iff in Hwf as [Hrect _].
  rewrite forallb_forall in Hrect.
  apply Nat.eqb_eq, Hrect, list_elem_of_In, list_elem_of_lookup. eauto.
Qed.

Lemma valid_row_block props k cells :
  valid_table props = true →
  data props !! k = Some cells →
  ∃ topic opinion comment,
    label_lookup (zip (columns props) cells) "topic" = Some topic
    ∧ label_lookup (zip (columns props) cells) "opinion" = Some opinion
    ∧ label_lookup (zip (columns props) cells) "comment" = Some comment
    ∧ render_block (Z.of_nat k, zip (columns props) cells) =
        Some (template (Z.of_nat k) (py_format topic) (py_format opinion)
                (py_format comment)).
Proof.
  unfold valid_table. intros Hv Hk.
  apply andb_true_iff in Hv as [Hwf Hreq].
  pose proof (well_formed_row _ _ _ Hwf Hk) as Hlen.
  cbn in Hreq. unfold has_column in Hreq.
  apply andb_true_iff in Hreq as [Ht Hreq].
  apply andb_true_iff in Hreq as [Ho Hreq].
  apply andb_true_iff in Hreq as [Hc _].
  destruct (label_lookup_zip _ cells _ Ht Hlen) as [topic Et].
  destruct (label_lookup_zip _ cells _ Ho Hlen) as [opinion Eo].
  destruct (label_lookup_zip _ cells _ Hc Hlen) as [comment Ec].
  exists topic, opinion, comment. unfold render_block. cbn [fst snd].
  by rewrite Et, Eo, Ec.
Qed.

(** Every row of a valid table has its block. *)
Lemma valid_table_blocks props :
  valid_table props = true →
  ∃ blocks, render_block <$> iterrows props = Some <$> blocks.
Proof.
  intros Hv.
  assert (H : ∀ ir, ir ∈ iterrows props → is_Some (render_block ir)).
  { intros ir [k Hk]%list_elem_of_lookup.
    rewrite iterrows_lookup in Hk.
    destruct (data props !! k) as [cells|] eqn:E; [|done].
    cbn in Hk. injection Hk as <-.
    destruct (valid_row_block _ _ _ Hv E) as (t & o & c & _ & _ & _ & ->).
    by eexists. }
  induction (iterrows props) as [|ir rows IH].
  - by exists [].
  - destruct (H ir) as [b Hb]; [by left|].
    destruct IH as [blocks Hblocks]; [intros; apply H; by right|].
    exists (b :: blocks). cbn. by rewrite Hb, Hblocks.
Qed.

Lemma written_by_row_block index row b :
  render_block (index, row) = Some b → written_by_row index row = (b, None).
Proof.
  unfold render_block, written_by_row. cbn [fst snd].
  destruct (label_lookup row "topic"); [|done].
  destruct (label_lookup row "opinion"); [|done].
  destruct (label_lookup row "comment"); [|done].
  by intros [= <-].
Qed.

(** Where every row has its block, the loop writes the blocks with a blank
    line between one and the next, after the separator it starts with. *)
Lemma written_blocks rows : ∀ blocks separator,
  render_block <$> rows = Some <$> blocks →
  written_by_rows separator rows =
  (match blocks with
   | [] => ""
   | _ => separator +:+ String.concat blank_line blocks
   end, None).
Proof.
  induction rows as [|[index row] rows IH]; intros [|b blocks] separator H;
    try discriminate; [done|].
  cbn in H. injection H as Hb Hrest.
  cbn [written_by_rows]. rewrite (written_by_row_block _ _ _ Hb).
  rewrite (IH _ _ Hrest). destruct blocks as [|b' blocks].
  - cbn. by rewrite app_nil_r_s.
  - reflexivity.
Qed.

Lemma written_valid props blocks :
  render_block <$> iterrows props = Some <$> blocks →
  written_by_rows "" (iterrows props) = (String.concat blank_line blocks, None).
Proof.
  intros H. rewrite (written_blocks _ _ _ H). by destruct blocks.
Qed.

(** ** File objects *)

Lemma put_is_open w h path b b' :
  is_open w h path b → is_open (put h path b' w) h path b'.
Proof.
  unfold is_open, put. cbn. intros H.
  apply list_lookup_insert_eq. by eapply lookup_lt_Some.
Qed.

Lemma put_put w h path b1 b2 :
  put h path b2 (put h path b1 w) = put h path b2 w.
Proof. unfold put, set_files. cbn. f_equal. apply list_insert_insert_eq. Qed.

Lemma put_same w h path b : is_open w h path b → put h path b w = w.
Proof.
  destruct w as [d c fs]. unfold is_open, put, set_files. cbn. intros H.
  f_equal. by apply list_insert_id.
Qed.

Lemma write_open w h path b s :
  is_open w h path b → write h s w = (Return tt, put h path (b +:+ s) w).
Proof. unfold is_open, write. intros ->. reflexivity. Qed.

Lemma write_put w h path b b' s :
  is_open w h path b →
  write h s (put h path b' w) = (Return tt, put h path (b' +:+ s) w).
Proof.
  intros H. rewrite (write_open _ _ path b') by by eapply put_is_open.
  by rewrite put_put.
Qed.

Lemma getitem_run row key w :
  getitem row key w =
  (match label_lookup row key with
   | Some v => Return v
   | None => Raise (KeyError key)
   end, w).
Proof. unfold getitem. by destruct (label_lookup row key). Qed.

(** ** The loop *)

(** The loop writes [written_by_rows] into the buffer of the open file and
    ends as that function says. *)
Lemma for_rows_run rows : ∀ separator w h path b,
  is_open w h path b →
  for_rows h rows separator w =
  (result_of (written_by_rows separator rows).2,
   put h path (b +:+ (written_by_rows separator rows).1) w).
Proof.
  induction rows as [|[index row] rows IH]; intros separator w h path b Hopen.
  - cbn. by rewrite app_nil_r_s, (put_same _ _ _ _ Hopen).
  - cbn [for_rows written_by_rows]. unfold bind, written_by_row.
    rewrite (write_open _ _ _ _ _ Hopen).
    rewrite !(write_put _ _ _ _ _ _ Hopen), getitem_run.
    destruct (label_lookup row "topic") as [topic|]; cbn [fst snd result_of];
      [|by text_eq].
    rewrite !(write_put _ _ _ _ _ _ Hopen), getitem_run.
    destruct (label_lookup row "opinion") as [opinion|]; cbn [fst snd result_of];
      [|by text_eq].
    rewrite !(write_put _ _ _ _ _ _ Hopen), getitem_run.
    destruct (label_lookup row "comment") as [comment|]; cbn [fst snd result_of];
      [|by text_eq].
    rewrite !(write_put _ _ _ _ _ _ Hopen).
    erewrite IH by (eapply put_is_open; exact Hopen).
    rewrite put_put. unfold blank_line.
    destruct (written_by_rows (nl +:+ nl) rows) as [text' e].
    cbn [fst snd]. by text_eq.
Qed.

Lemma open_w_run w path :
  can_open w path = true →
  ∃ rd, open_w path w =
    (Return (length (files w)),
     set_files (files w ++ [mk_file_obj path "" false])
       (set_disk (<[path := File rd true ""]> (disk w)) w)).
Proof.
  unfold can_open, open_w. intros H.
  destruct (disk w !! path) as [[|rd wr content]|].
  - done.
  - exists rd. by rewrite H.
  - exists true. by rewrite H.
Qed.

Lemma blocks_lookup props blocks k cells :
  render_block <$> iterrows props = Some <$> blocks →
  data props !! k = Some cells →
  ∃ block, blocks !! k = Some block
    ∧ render_block (Z.of_nat k, zip (columns props) cells) = Some block.
Proof.
  intros H Hk.
  apply (f_equal (fun l => l !! k)) in H.
  rewrite !list_lookup_fmap, iterrows_lookup, Hk in H. cbn in H.
  destruct (blocks !! k) as [block|]; [|done].
  exists block. split; [done|]. cbn in H. congruence.
Qed.

(** The second line of a block is its identifier line. *)
Lemma lines_template index topic opinion comment :
  lines (template index topic opinion comment) !! 1%nat =
  Some ("[[ID:GOV" +:+ py_str_int index +:+ "]]").
Proof.
  unfold template, question_line, id_line.
  rewrite (app_assoc_s "[[Question:TextEntry:Essay]]" nl).
  rewrite lines_app_nl by done. cbn [lookup list_lookup].
  set (rest := topic_lines _ +:+ _).
  replace (("[[ID:GOV" +:+ py_str_int index +:+ "]]" +:+ nl) +:+ rest)
    with (("[[ID:GOV" +:+ py_str_int index +:+ "]]") +:+ nl +:+ rest)
    by (by rewrite !app_assoc_s).
  rewrite lines_app_nl; [done|].
  apply no_newline_app; [done|].
  apply no_newline_app; [apply no_newline_py_str_int | done].
Qed.

(** The first turn of the loop on a table that lacks a required column. *)
Lemma written_by_row_missing props cells index key :
  length cells = length (columns props) →
  first_missing props = Some key →
  written_by_row index (zip (columns props) cells) =
  (question_line +:+ id_line index
   +:+ fields_before key (zip (columns props) cells),
   Some (KeyError key)).
Proof.
  intros Hlen. unfold first_missing, required_columns, has_column.
  cbn [List.find]. unfold written_by_row, fields_before, cell_text.
  destruct (existsb (String.eqb "topic") (columns props)) eqn:Et; cbn [negb].
  2:{ intros [= <-]. rewrite (label_lookup_missing _ _ _ Et). cbn.
      by rewrite app_nil_r_s. }
  destruct (label_lookup_zip _ cells _ Et Hlen) as [topic ->].
  destruct (existsb (String.eqb "opinion") (columns props)) eqn:Eo; cbn [negb].
  2:{ intros [= <-]. by rewrite (label_lookup_missing _ _ _ Eo). }
  destruct (label_lookup_zip _ cells _ Eo Hlen) as [opinion ->].
  destruct (existsb (String.eqb "comment") (columns props)) eqn:Ec; cbn [negb].
  2:{ intros [= <-]. by rewrite (label_lookup_missing _ _ _ Ec). }
  discriminate.
Qed.

(** ** The command line, parsed *)


Lemma is_word_class v :
  argparse.is_word v = true →
  String.eqb v "--" = false ∧ argparse.parse_optional v = argparse.Word.
Proof.
  unfold argparse.is_word. intros [H1 H2]%andb_true_iff.
  apply negb_true_iff in H1.
  by destruct (argparse.parse_optional v).
Qed.






(** The template of the code is the block of the specification. *)
Lemma template_expected k topic opinion comment :
  template (Z.of_nat k) topic opinion comment =
  expected_block k topic opinion comment.
Proof. unfold expected_block, py_str_int. cbn [String.concat]. by text_eq. Qed.

(** In a row without a repeated label, the cell under a label is the one
    at the place of the label. *)
Lemma label_lookup_at cols : ∀ cells j key v,
  NoDup cols →
  cols !! j = Some key →
  cells !! j = Some v →
  label_lookup (zip cols cells) key = Some v.
Proof.
  induction cols as [|c cols IH]; intros [|x cells] [|j] key v Hnd Hc Hv;
    try done; cbn in *.
  - simplify_eq. by rewrite String.eqb_refl.
  - apply NoDup_cons in Hnd as [Hnotin Hnd].
    destruct (String.eqb_spec c key) as [->|_].
    + destruct Hnotin. by apply list_elem_of_lookup_2 in Hc.
    + by eapply IH.
Qed.

(** ** The converter on a given reader *)

Section Run.

(** pandas' CSV parser, as in [Converter]. *)
Variable csv_reader : string → exn + DataFrame.

(** Once the table is read and the output opened, the call ends as the
    loop does, leaves one more file object, closed and with nothing
    pending, and the output file holds all that was written. *)
Lemma create_survey_run w filename output props :
  read_csv csv_reader filename w = (Return props, w) →
  can_open w output = true →
  ∃ w', _create_survey csv_reader filename output w =
          (result_of (written_by_rows "" (iterrows props)).2, w')
        ∧ files w' = files w ++ [mk_file_obj output "" true]
        ∧ file_content w' output =
            Some (preamble +:+ (written_by_rows "" (iterrows props)).1)
        ∧ ∀ path, path ≠ output → disk w' !! path = disk w !! path.
Proof.
  intros Hread Hopen.
  destruct (open_w_run _ _ Hopen) as [rd Ho].
  unfold _create_survey, with_open_w, bind at 1 2. rewrite Hread, Ho.
  set (w1 := set_files _ _).
  assert (H1 : is_open w1 (length (files w)) output "").
  { unfold is_open, w1. cbn. by rewrite lookup_app_r, Nat.sub_diag. }
  unfold finally, bind.
  rewrite (write_open _ _ _ _ _ H1), (write_put _ _ _ _ _ _ H1).
  erewrite for_rows_run by (eapply put_is_open; exact H1).
  rewrite put_put.
  destruct (written_by_rows "" (iterrows props)) as [text e]. cbn [fst snd].
  set (b := _ +:+ text).
  assert (Hb : b = preamble +:+ text) by (unfold b; by text_eq).
  assert (Hc : close (length (files w)) (put (length (files w)) output b w1) =
    (Return tt,
     mk_World (<[output := File rd true b]> (disk w)) (may_create w)
       (files w ++ [mk_file_obj output "" true]))).
  { unfold close, put, w1, set_files, set_disk, flush_to. cbn.
    rewrite list_lookup_insert_eq by (rewrite length_app; cbn; lia). cbn.
    rewrite lookup_insert_eq, insert_insert_eq, list_insert_insert_eq.
    do 2 f_equal.
    replace (length (files w)) with (length (files w) + 0) at 1 by lia.
    by rewrite insert_app_r. }
  eexists.
  split; [|split; [|split]].
  - destruct e as [e|]; cbn [result_of]; rewrite Hc; reflexivity.
  - reflexivity.
  - unfold file_content. cbn. by rewrite lookup_insert_eq, Hb.
  - intros path Hne. cbn. by rewrite lookup_insert_ne.
Qed.

(** ** The claims *)

(** C1. For a valid table with n data rows the call succeeds and the
    output file holds the preamble followed by the n blocks of the rows,
    in the order of the rows, joined by one blank line (two line feeds)
    between consecutive blocks, with nothing in front of the first block
    and nothing after the last. *)
Theorem convert_writes_blocks w filename output props :
  read_csv csv_reader filename w = (Return props, w) →
  can_open w output = true →
  valid_table props = true →
  ∃ w' blocks,
    _create_survey csv_reader filename output w = (Return tt, w')
    ∧ render_block <$> iterrows props = Some <$> blocks
    ∧ length blocks = length (data props)
    ∧ file_content w' output =
        Some (preamble +:+ String.concat (nl +:+ nl) blocks).
Proof.
  intros Hread Hopen Hvalid.
  destruct (valid_table_blocks _ Hvalid) as [blocks Hblocks].
  destruct (create_survey_run _ _ _ _ Hread Hopen) as (w' & Hrun & _ & Hout & _).
  rewrite (written_valid _ _ Hblocks) in Hrun, Hout.
  exists w', blocks. repeat split; try done.
  apply (f_equal length) in Hblocks.
  rewrite !length_fmap, iterrows_length in Hblocks. done.
Qed.

(** C2. In the output for a valid table, the block of the row at
    zero-based position k has as its second line, the identifier line,
    exactly [[ID:GOVk]] with k printed in decimal by the printer of the
    standard library, whatever the cells of the row hold. *)
Theorem identifier_by_position w filename output props k cells :
  read_csv csv_reader filename w = (Return props, w) →
  can_open w output = true →
  valid_table props = true →
  data props !! k = Some cells →
  ∃ w' blocks block,
    _create_survey csv_reader filename output w = (Return tt, w')
    ∧ file_content w' output =
        Some (preamble +:+ String.concat (nl +:+ nl) blocks)
    ∧ blocks !! k = Some block
    ∧ render_block (Z.of_nat k, zip (columns props) cells) = Some block
    ∧ lines block !! 1%nat =
        Some ("[[ID:GOV" +:+ NilZero.string_of_int (Z.to_int (Z.of_nat k)) +:+ "]]").
Proof.
  intros Hread Hopen Hvalid Hk.
  destruct (valid_table_blocks _ Hvalid) as [blocks Hblocks].
  destruct (create_survey_run _ _ _ _ Hread Hopen) as (w' & Hrun & _ & Hout & _).
  rewrite (written_valid _ _ Hblocks) in Hrun, Hout.
  destruct (blocks_lookup _ _ _ _ Hblocks Hk) as (block & Hb & Hr).
  destruct (valid_row_block _ _ _ Hvalid Hk) as (t & o & c & _ & _ & _ & Ht).
  exists w', blocks, block. repeat split; try done.
  rewrite Hr in Ht. injection Ht as ->. apply lines_template.
Qed.

(** C4. For the table of the example, with the rows (Climate, Pro,
    It's real) and (Tax, Con, Too high), the call writes exactly the text
    of the example. *)
Theorem example_output w filename output :
  read_csv csv_reader filename w = (Return gov_frame, w) →
  can_open w output = true →
  ∃ w',
    _create_survey csv_reader filename output w = (Return tt, w')
    ∧ file_content w' output = Some gov_output.
Proof.
  intros Hread Hopen.
  destruct (create_survey_run _ _ _ _ Hread Hopen) as (w' & Hrun & _ & Hout & _).
  exists w'. split; [exact Hrun | exact Hout].
Qed.

(** C5, as the code has it. A row of a valid table whose cells under
    topic, opinion and comment are texts, without markup characters, has
    as its block the block of the specification filled with exactly these
    texts, character for character. (A cell that is not a text, as the
    missing value of an empty field, is formatted instead.) *)
Theorem fields_verbatim w filename output props k cells topic opinion comment :
  read_csv csv_reader filename w = (Return props, w) →
  can_open w output = true →
  valid_table props = true →
  data props !! k = Some cells →
  label_lookup (zip (columns props) cells) "topic" = Some (VStr topic) →
  label_lookup (zip (columns props) cells) "opinion" = Some (VStr opinion) →
  label_lookup (zip (columns props) cells) "comment" = Some (VStr comment) →
  markup_free topic = true →
  markup_free opinion = true →
  markup_free comment = true →
  ∃ w' blocks,
    _create_survey csv_reader filename output w = (Return tt, w')
    ∧ file_content w' output =
        Some (preamble +:+ String.concat (nl +:+ nl) blocks)
    ∧ blocks !! k = Some (expected_block k topic opinion comment).
Proof.
  intros Hread Hopen Hvalid Hk Ht Ho Hc _ _ _.
  destruct (valid_table_blocks _ Hvalid) as [blocks Hblocks].
  destruct (create_survey_run _ _ _ _ Hread Hopen) as (w' & Hrun & _ & Hout & _).
  rewrite (written_valid _ _ Hblocks) in Hrun, Hout.
  destruct (blocks_lookup _ _ _ _ Hblocks Hk) as (block & Hb & Hr).
  exists w', blocks. repeat split; try done.
  unfold render_block in Hr. cbn [fst snd] in Hr. rewrite Ht, Ho, Hc in Hr.
  rewrite Hb, <- Hr. cbn [py_format]. by rewrite template_expected.
Qed.

(** C6. For a table with a valid header and no data row the call succeeds
    and the output file holds exactly the preamble, the line
    [[AdvancedFormat]], an empty line, the line [[Block:GOVBlock]] and an
    empty line, each ended by a line feed: no block and no separator. *)
Theorem header_only_output w filename output props :
  read_csv csv_reader filename w = (Return props, w) →
  can_open w output = true →
  valid_table props = true →
  data props = [] →
  ∃ w',
    _create_survey csv_reader filename output w = (Return tt, w')
    ∧ file_content w' output =
        Some (String.concat (String "010" "")
                ["[[AdvancedFormat]]"; ""; "[[Block:GOVBlock]]"; ""; ""]).
Proof.
  intros Hread Hopen _ Hdata.
  destruct (create_survey_run _ _ _ _ Hread Hopen) as (w' & Hrun & _ & Hout & _).
  unfold iterrows in Hrun, Hout. rewrite Hdata in Hrun, Hout.
  exists w'. split; [exact Hrun | exact Hout].
Qed.

(** C8. Where the input path names no file that can be read (no entry, a
    directory, or a file without read permission), the call fails with an
    [OSError] and leaves the world as it was: the output file is neither
    created nor overwritten. *)
Theorem unreadable_input w filename output :
  unreadable w filename = true →
  ∃ e,
    _create_survey csv_reader filename output w = (Raise e, w)
    ∧ is_OSError e = true.
Proof.
  unfold unreadable, _create_survey, bind, read_csv. intros H.
  destruct (disk w !! filename) as [[|[|] wr text]|]; try done; by eexists.
Qed.

(** C9. Every call that opens the output ends, whether it returns or
    raises, with the file object it created closed and its buffer empty,
    and with all that was written on disk. *)
Theorem sink_closed_and_flushed w filename output props :
  read_csv csv_reader filename w = (Return props, w) →
  can_open w output = true →
  ∃ w',
    _create_survey csv_reader filename output w =
      (result_of (written_by_rows "" (iterrows props)).2, w')
    ∧ length (files w') = S (length (files w))
    ∧ (∀ h f, files w' !! h = Some f → length (files w) ≤ h →
         f_path f = output ∧ f_closed f = true ∧ f_buffer f = "")
    ∧ file_content w' output =
        Some (preamble +:+ (written_by_rows "" (iterrows props)).1).
Proof.
  intros Hread Hopen.
  destruct (create_survey_run _ _ _ _ Hread Hopen) as (w' & Hrun & Hfiles & Hout & _).
  exists w'. split; [exact Hrun|]. split; [|split; [|exact Hout]].
  - rewrite Hfiles, length_app. cbn. lia.
  - intros h f Hf Hh. rewrite Hfiles, lookup_app_r in Hf by done.
    destruct (h - length (files w))%nat; cbn in Hf; by simplify_eq.
Qed.

(** A row of a valid table with the missing value NaN under one of the
    required columns has nan at the place of that column in its block. *)
Lemma nan_cell_block w filename output props k cells key :
  read_csv csv_reader filename w = (Return props, w) →
  can_open w output = true →
  valid_table props = true →
  data props !! k = Some cells →
  is_required key = true →
  label_lookup (zip (columns props) cells) key = Some VNaN →
  ∃ w' blocks topic opinion comment,
    _create_survey csv_reader filename output w = (Return tt, w')
    ∧ file_content w' output =
        Some (preamble +:+ String.concat (nl +:+ nl) blocks)
    ∧ blocks !! k = Some (expected_block k topic opinion comment)
    ∧ (key = "topic" → topic = "nan")
    ∧ (key = "opinion" → opinion = "nan")
    ∧ (key = "comment" → comment = "nan").
Proof.
  intros Hread Hopen Hvalid Hk _ Hnan.
  destruct (valid_table_blocks _ Hvalid) as [blocks Hblocks].
  destruct (create_survey_run _ _ _ _ Hread Hopen) as (w' & Hrun & _ & Hout & _).
  rewrite (written_valid _ _ Hblocks) in Hrun, Hout.
  destruct (blocks_lookup _ _ _ _ Hblocks Hk) as (block & Hb & Hr).
  destruct (valid_row_block _ _ _ Hvalid Hk) as (t & o & c & Et & Eo & Ec & Ht).
  rewrite Hr in Ht. injection Ht as ->.
  exists w', blocks, (py_format t), (py_format o), (py_format c).
  rewrite <- template_expected.
  repeat split; try done; intros ->; rewrite Hnan in *; by simplify_eq.
Qed.

(** C3, as the code has it. For a table whose header lacks a required
    column: with no data row the call succeeds and writes the preamble
    alone; with at least one data row it raises [KeyError] for the first
    of topic, opinion, comment that is lacking, at the first row, and the
    output file then holds the preamble, the question line and the
    identifier line of block 0 and the fields written before the lookup
    that failed. *)
Theorem missing_column_behaviour w filename output props key :
  read_csv csv_reader filename w = (Return props, w) →
  can_open w output = true →
  well_formed props = true →
  first_missing props = Some key →
  (data props = [] →
   ∃ w', _create_survey csv_reader filename output w = (Return tt, w')
         ∧ file_content w' output = Some preamble)
  ∧ (∀ cells rest, data props = cells :: rest →
     ∃ w', _create_survey csv_reader filename output w = (Raise (KeyError key), w')
           ∧ file_content w' output =
               Some (preamble +:+ question_line +:+ id_line 0
                     +:+ fields_before key (zip (columns props) cells))).
Proof.
  intros Hread Hopen Hwf Hmiss.
  destruct (create_survey_run _ _ _ _ Hread Hopen) as (w' & Hrun & _ & Hout & _).
  split.
  - intros Hdata. unfold iterrows in Hrun, Hout. rewrite Hdata in Hrun, Hout.
    exists w'. split; [exact Hrun | exact Hout].
  - intros cells rest Hdata.
    assert (Hlen : length cells = length (columns props)).
    { apply (well_formed_row props 0); [done | by rewrite Hdata]. }
    unfold iterrows in Hrun, Hout. rewrite Hdata in Hrun, Hout.
    cbn [imap written_by_rows] in Hrun, Hout.
    rewrite (written_by_row_missing _ _ _ _ Hlen Hmiss) in Hrun, Hout.
    exists w'. split; [exact Hrun | exact Hout].
Qed.


End Run.

(** ** The converter on the reader of pandas *)

Section OnPandas.

Variable tokenize : string → exn + RawTable.
Variable typed : RawTable → nat → nat → string → value.

Lemma read_pandas w filename wr text raw :
  disk w !! filename = Some (File true wr text) →
  tokenize text = inr raw →
  read_csv (pandas_reader tokenize typed) filename w =
    (Return (frame_of typed raw), w).
Proof.
  intros Hfile Htok. unfold read_csv, pandas_reader. by rewrite Hfile, Htok.
Qed.

Lemma valid_frame_of raw :
  valid_raw raw = true → valid_table (frame_of typed raw) = true.
Proof.
  unfold valid_raw, valid_table, well_formed, has_column. cbn [columns data frame_of].
  intros [[Hrect Hnodup]%andb_true_iff Hreq]%andb_true_iff.
  rewrite Hnodup, Hreq, !andb_true_r.
  rewrite forallb_forall in Hrect. apply forallb_forall.
  intros cells [i Hi]%list_elem_of_In%list_elem_of_lookup.
  rewrite list_lookup_imap in Hi.
  destruct (fields raw !! i) as [line|] eqn:E; [|done].
  cbn in Hi. injection Hi as <-. rewrite length_imap.
  apply Hrect, list_elem_of_In, list_elem_of_lookup. eauto.
Qed.

(** C10. In a table as pandas reads it, a row with an empty field under
    one of the required columns does not make the call fail, and its block
    has the text nan, not the empty text, at the place of that column: the
    empty field is read as the missing value NaN, which the f-string
    prints as nan. *)
Theorem empty_field_rendered_nan w filename output wr text raw k line j key :
  disk w !! filename = Some (File true wr text) →
  tokenize text = inr raw →
  can_open w output = true →
  valid_raw raw = true →
  fields raw !! k = Some line →
  is_required key = true →
  header raw !! j = Some key →
  line !! j = Some "" →
  ∃ w' blocks topic opinion comment,
    _create_survey (pandas_reader tokenize typed) filename output w =
      (Return tt, w')
    ∧ file_content w' output =
        Some (preamble +:+ String.concat (nl +:+ nl) blocks)
    ∧ blocks !! k = Some (expected_block k topic opinion comment)
    ∧ (key = "topic" → topic = "nan")
    ∧ (key = "opinion" → opinion = "nan")
    ∧ (key = "comment" → comment = "nan").
Proof.
  intros Hfile Htok Hopen Hvalid Hk Hreq Hj Hfield.
  pose proof (read_pandas _ _ _ _ _ Hfile Htok) as Hread.
  pose proof (valid_frame_of _ Hvalid) as Hv.
  assert (Hnodup : NoDup (header raw)).
  { unfold valid_raw in Hvalid.
    apply andb_true_iff in Hvalid as [[_ H]%andb_true_iff _].
    by apply bool_decide_eq_true in H. }
  assert (Hrow : data (frame_of typed raw) !! k =
                 Some (imap (cell_value typed raw k) line)).
  { cbn [data frame_of]. by rewrite list_lookup_imap, Hk. }
  apply (nan_cell_block _ _ _ _ _ _ _ key Hread Hopen Hv Hrow Hreq).
  apply (label_lookup_at _ _ j); [done | done |].
  by rewrite list_lookup_imap, Hfield.
Qed.

End OnPandas.

(** ** Runs on concrete inputs *)

Example py_str_int_12 : py_str_int 12 = "12".
Proof. reflexivity. Qed.

Example py_str_int_neg : py_str_int (-3) = "-3".
Proof. reflexivity. Qed.

Example plain_reader_gov : plain.reader gov_csv = inr gov_frame.
Proof. reflexivity. Qed.

Example plain_reader_empty_cell : plain.reader empty_cell_csv = inr empty_cell_frame.
Proof. reflexivity. Qed.

Example parse_args_full :
  argparse.parse_args ["--input_csv"; "in.csv"; "--output_txt"; "out.txt"] =
  inr (argparse.mk_Namespace (argparse.Str "in.csv") (argparse.Str "out.txt")).
Proof. reflexivity. Qed.

Example parse_args_abbreviated :
  argparse.parse_args ["--out=out.txt"; "--in"; "in.csv"] =
  inr (argparse.mk_Namespace (argparse.Str "in.csv") (argparse.Str "out.txt")).
Proof. reflexivity. Qed.

(** A cluster of help flags is the help flag; text glued to it is not. *)
Example parse_args_help_cluster :
  argparse.parse_args ["-hh"] = inl 0%Z
  ∧ argparse.parse_args ["-hx"] = inl 2%Z
  ∧ argparse.parse_args ["--help=h"] = inl 2%Z.
Proof. repeat split; reflexivity. Qed.

(** The argument [--] given with [=] leaves the empty list, and the
    converter then fails on it before any file is touched. *)
Example parse_args_dropped_argument :
  argparse.parse_args ["--input_csv=--"; "--output_txt"; "out.txt"] =
    inr (argparse.mk_Namespace argparse.EmptyList (argparse.Str "out.txt"))
  ∧ main plain.reader ["--input_csv=--"; "--output_txt"; "out.txt"]
      (world_with gov_csv) =
    (Raise (ValueError "Invalid file path or buffer object type: <class 'list'>"),
     world_with gov_csv).
Proof. split; reflexivity. Qed.

Example parse_args_no_output :
  argparse.parse_args ["--input_csv"; "in.csv"] = inl 2%Z.
Proof. reflexivity. Qed.

Example parse_args_stray_word :
  argparse.parse_args ["--input_csv"; "in.csv"; "--output_txt"; "out.txt"; "more"] =
  inl 2%Z.
Proof. reflexivity. Qed.

Example main_converts :
  let r := main plain.reader ["--input_csv"; "in.csv"; "--output_txt"; "out.txt"]
             (world_with gov_csv) in
  r.1 = Return tt ∧ file_content r.2 "out.txt" = Some gov_output.
Proof. split; reflexivity. Qed.

(** The help flag after a complete option exits with status 0; in the
    place of the argument of an option it is an error. *)
Example main_help_after_option :
  main plain.reader ["--output_txt"; "out.txt"; "--help"] (world_with gov_csv) =
    (Raise (SystemExit 0), world_with gov_csv)
  ∧ main plain.reader ["--output_txt"; "-h"] (world_with gov_csv) =
      (Raise (SystemExit 2), world_with gov_csv).
Proof. split; reflexivity. Qed.

(** The stand-in reader on line ends and on lines longer than the
    header. *)
Example plain_reader_line_ends :
  plain.reader ("topic,opinion,comment" +:+ String "013" nl
                +:+ "Climate,Pro,It's real,more" +:+ String "013" nl
                +:+ "Tax,Con,Too high" +:+ String "013" nl) =
  inr gov_frame.
Proof. reflexivity. Qed.

(** The output file cannot be opened: the call raises, after the table is
    read, and nothing changes. *)
Example output_not_writable :
  _create_survey plain.reader "in.csv" "in.csv" (world_with gov_csv) =
  (Raise (PermissionError "in.csv"), world_with gov_csv).
Proof. reflexivity. Qed.

(** ** The claims on concrete tables *)

Lemma convert_writes_blocks_witness :
  valid_table gov_frame = true
  ∧ ∃ w' blocks,
      _create_survey plain.reader "in.csv" "out.txt" (world_with gov_csv) =
        (Return tt, w')
      ∧ render_block <$> iterrows gov_frame = Some <$> blocks
      ∧ length blocks = length (data gov_frame)
      ∧ file_content w' "out.txt" =
          Some (preamble +:+ String.concat (nl +:+ nl) blocks).
Proof.
  split; [reflexivity|].
  apply (convert_writes_blocks plain.reader (world_with gov_csv)
           "in.csv" "out.txt" gov_frame); reflexivity.
Defined.

Lemma identifier_by_position_witness :
  data gov_frame !! 1%nat = Some [VStr "Tax"; VStr "Con"; VStr "Too high"]
  ∧ ∃ w' blocks block,
      _create_survey plain.reader "in.csv" "out.txt" (world_with gov_csv) =
        (Return tt, w')
      ∧ file_content w' "out.txt" =
          Some (preamble +:+ String.concat (nl +:+ nl) blocks)
      ∧ blocks !! 1%nat = Some block
      ∧ render_block (Z.of_nat 1, zip (columns gov_frame)
                        [VStr "Tax"; VStr "Con"; VStr "Too high"]) = Some block
      ∧ lines block !! 1%nat = Some "[[ID:GOV1]]".
Proof.
  split; [reflexivity|].
  apply (identifier_by_position plain.reader (world_with gov_csv)
           "in.csv" "out.txt" gov_frame 1
           [VStr "Tax"; VStr "Con"; VStr "Too high"]); reflexivity.
Defined.

Lemma example_output_witness :
  read_csv plain.reader "in.csv" (world_with gov_csv) =
    (Return gov_frame, world_with gov_csv)
  ∧ ∃ w',
      _create_survey plain.reader "in.csv" "out.txt" (world_with gov_csv) =
        (Return tt, w')
      ∧ file_content w' "out.txt" = Some gov_output.
Proof.
  split; [reflexivity|].
  apply (example_output plain.reader (world_with gov_csv) "in.csv" "out.txt");
    reflexivity.
Defined.

Lemma fields_verbatim_witness :
  markup_free "Climate" = true
  ∧ markup_free "Pro" = true
  ∧ markup_free "It's real" = true
  ∧ ∃ w' blocks,
      _create_survey plain.reader "in.csv" "out.txt" (world_with gov_csv) =
        (Return tt, w')
      ∧ file_content w' "out.txt" =
          Some (preamble +:+ String.concat (nl +:+ nl) blocks)
      ∧ blocks !! 0%nat =
          Some (String.concat (String "010" "")
                  ["[[Question:TextEntry:Essay]]";
                   "[[ID:GOV0]]";
                   "<h4><strong>Topic:</strong> Climate</h4>";
                   "<br/>";
                   "<h3><strong>Opinion:</strong> Pro</h3>";
                   "<br/>";
                   "<p><strong>&ldquo;It's real&rdquo;</strong></p>"]).
Proof.
  repeat (split; [reflexivity|]).
  apply (fields_verbatim plain.reader (world_with gov_csv) "in.csv" "out.txt"
           gov_frame 0 [VStr "Climate"; VStr "Pro"; VStr "It's real"]
           "Climate" "Pro" "It's real");
    reflexivity.
Defined.

Lemma header_only_output_witness :
  read_csv plain.reader "in.csv" (world_with header_only_csv) =
    (Return (mk_DataFrame ["topic"; "opinion"; "comment"] []),
     world_with header_only_csv)
  ∧ ∃ w',
      _create_survey plain.reader "in.csv" "out.txt" (world_with header_only_csv) =
        (Return tt, w')
      ∧ file_content w' "out.txt" =
          Some (String.concat (String "010" "")
                  ["[[AdvancedFormat]]"; ""; "[[Block:GOVBlock]]"; ""; ""]).
Proof.
  split; [reflexivity|].
  apply (header_only_output plain.reader (world_with header_only_csv)
           "in.csv" "out.txt" (mk_DataFrame ["topic"; "opinion"; "comment"] []));
    reflexivity.
Defined.

Lemma unreadable_input_witness :
  unreadable (world_with gov_csv) "absent.csv" = true
  ∧ ∃ e,
      _create_survey plain.reader "absent.csv" "out.txt" (world_with gov_csv) =
        (Raise e, world_with gov_csv)
      ∧ is_OSError e = true.
Proof.
  split; [reflexivity|].
  apply (unreadable_input plain.reader (world_with gov_csv) "absent.csv" "out.txt");
    reflexivity.
Defined.

Lemma sink_closed_and_flushed_witness :
  can_open (world_with no_topic_csv) "out.txt" = true
  ∧ ∃ w',
      _create_survey plain.reader "in.csv" "out.txt" (world_with no_topic_csv) =
        (result_of (written_by_rows "" (iterrows no_topic_frame)).2, w')
      ∧ length (files w') = S (length (files (world_with no_topic_csv)))
      ∧ (∀ h f, files w' !! h = Some f →
           length (files (world_with no_topic_csv)) ≤ h →
           f_path f = "out.txt" ∧ f_closed f = true ∧ f_buffer f = "")
      ∧ file_content w' "out.txt" =
          Some (preamble +:+ (written_by_rows "" (iterrows no_topic_frame)).1).
Proof.
  split; [reflexivity|].
  apply (sink_closed_and_flushed plain.reader (world_with no_topic_csv)
           "in.csv" "out.txt" no_topic_frame); reflexivity.
Defined.

Lemma missing_column_behaviour_witness :
  first_missing no_topic_frame = Some "topic"
  ∧ ∃ w',
      _create_survey plain.reader "in.csv" "out.txt" (world_with no_topic_csv) =
        (Raise (KeyError "topic"), w')
      ∧ file_content w' "out.txt" =
          Some (preamble +:+ question_line +:+ id_line 0
                +:+ fields_before "topic"
                      (zip (columns no_topic_frame) [VStr "Pro"; VStr "It's real"])).
Proof.
  split; [reflexivity|].
  apply (proj2 (missing_column_behaviour plain.reader (world_with no_topic_csv)
                  "in.csv" "out.txt" no_topic_frame "topic"
                  ltac:(reflexivity) ltac:(reflexivity) ltac:(reflexivity)
                  ltac:(reflexivity))
           [VStr "Pro"; VStr "It's real"] []).
  reflexivity.
Defined.


Lemma empty_field_rendered_nan_witness :
  plain.tokenize empty_cell_csv = inr empty_cell_raw
  ∧ valid_raw empty_cell_raw = true
  ∧ ∃ w' blocks topic opinion comment,
      _create_survey (pandas_reader plain.tokenize plain.typed)
        "in.csv" "out.txt" (world_with empty_cell_csv) = (Return tt, w')
      ∧ file_content w' "out.txt" =
          Some (preamble +:+ String.concat (nl +:+ nl) blocks)
      ∧ blocks !! 0%nat = Some (expected_block 0 topic opinion comment)
      ∧ ("opinion" = "topic" → topic = "nan")
      ∧ ("opinion" = "opinion" → opinion = "nan")
      ∧ ("opinion" = "comment" → comment = "nan").
Proof.
  split; [reflexivity|]. split; [reflexivity|].
  apply (empty_field_rendered_nan plain.tokenize plain.typed
           (world_with empty_cell_csv) "in.csv" "out.txt" false empty_cell_csv
           empty_cell_raw 0 ["Climate"; ""; "It's real"] 1 "opinion");
    reflexivity.
Defined.

(** C5, as stated, fails. In the table of [empty_cell_csv] the fields of
    the one row are Climate, the empty text and It's real, none with a
    markup character; the block has nan at the place of the opinion, not
    the empty text of the field. *)
Lemma empty_field_counterexample :
  let run :=
    _create_survey plain.reader "in.csv" "out.txt" (world_with empty_cell_csv) in
  plain.tokenize empty_cell_csv = inr empty_cell_raw
  ∧ markup_free "Climate" = true
  ∧ markup_free "" = true
  ∧ markup_free "It's real" = true
  ∧ run.1 = Return tt
  ∧ file_content run.2 "out.txt" =
      Some (preamble +:+ String.concat (nl +:+ nl)
              [expected_block 0 "Climate" "nan" "It's real"])
  ∧ expected_block 0 "Climate" "nan" "It's real"
    ≠ expected_block 0 "Climate" "" "It's real".
Proof.
  cbv zeta. repeat split; try reflexivity.
  vm_compute. discriminate.
Qed.

(** C3, as stated, fails. The table of [no_topic_csv] lacks the column
    topic and has one row: the call raises, but the output file exists and
    holds the question line and the identifier line of block 0 after the
    preamble. With the same header and no row the call does not fail at
    all. *)
Lemma missing_column_counterexample :
  let failed :=
    _create_survey plain.reader "in.csv" "out.txt" (world_with no_topic_csv) in
  let passed :=
    _create_survey plain.reader "in.csv" "out.txt"
      (world_with no_topic_header_csv) in
  plain.reader no_topic_csv = inr no_topic_frame
  ∧ first_missing no_topic_frame = Some "topic"
  ∧ file_content failed.2 "out.txt" =
      Some (preamble +:+ "[[Question:TextEntry:Essay]]" +:+ nl
            +:+ "[[ID:GOV0]]" +:+ nl)
  ∧ ¬ (file_content failed.2 "out.txt" = None
       ∨ file_content failed.2 "out.txt" = Some preamble)
  ∧ plain.reader no_topic_header_csv = inr (mk_DataFrame ["opinion"; "comment"] [])
  ∧ passed.1 = Return tt.
Proof.
  cbv zeta. repeat split; try reflexivity.
  vm_compute. intros [H|H]; discriminate H.
Qed.


(** ** Further properties of the converter *)

Lemma read_csv_world reader filename w : (read_csv reader filename w).2 = w.
Proof.
  unfold read_csv.
  destruct (disk w !! filename) as [[|[|] wr text]|]; try done.
  by destruct (reader text).
Qed.

Lemma open_w_fails w path :
  can_open w path = false →
  ∃ e, open_w path w = (Raise e, w) ∧ is_OSError e = true.
Proof.
  unfold can_open, open_w. intros H.
  destruct (disk w !! path) as [[|rd wr content]|]; rewrite ?H; by eexists.
Qed.

Lemma written_by_row_ext index row1 row2 :
  rows_agree row1 row2 = true →
  written_by_row index row1 = written_by_row index row2.
Proof.
  unfold rows_agree, required_columns, written_by_row. cbn [forallb].
  intros H.
  apply andb_true_iff in H as [Ht%bool_decide_eq_true H].
  apply andb_true_iff in H as [Ho%bool_decide_eq_true H].
  apply andb_true_iff in H as [Hc%bool_decide_eq_true _].
  by rewrite Ht, Ho, Hc.
Qed.

Lemma written_by_rows_ext rows1 rows2 :
  Forall2 (fun r1 r2 => r1.1 = r2.1 ∧ rows_agree r1.2 r2.2 = true) rows1 rows2 →
  ∀ separator, written_by_rows separator rows1 = written_by_rows separator rows2.
Proof.
  induction 1 as [|[i1 row1] [i2 row2] rows1 rows2 [Hi Hrow] _ IH];
    intros separator; [done|].
  cbn in Hi, Hrow. subst i2. cbn [written_by_rows].
  by rewrite (written_by_row_ext _ _ _ Hrow), (IH blank_line).
Qed.

Lemma iterrows_agree props1 props2 :
  agree_on_required props1 props2 = true →
  Forall2 (fun r1 r2 => r1.1 = r2.1 ∧ rows_agree r1.2 r2.2 = true)
    (iterrows props1) (iterrows props2).
Proof.
  unfold agree_on_required. intros [Hlen Hrows]%andb_true_iff.
  apply Nat.eqb_eq in Hlen. rewrite forallb_forall in Hrows.
  apply Forall2_same_length_lookup_2.
  - by rewrite !iterrows_length.
  - intros i r1 r2. rewrite !iterrows_lookup.
    destruct (data props1 !! i) as [c1|] eqn:E1; [|done].
    destruct (data props2 !! i) as [c2|] eqn:E2; [|done].
    cbn. intros [= <-] [= <-]. split; [done|].
    apply (Hrows (c1, c2)), list_elem_of_In, (list_elem_of_lookup_2 _ i).
    apply lookup_zip_with_Some. by exists c1, c2.
Qed.

(** Printing an integer in decimal loses nothing. *)
Lemma py_str_int_inj z1 z2 : py_str_int z1 = py_str_int z2 → z1 = z2.
Proof.
  unfold py_str_int. intros H.
  apply DecimalZ.to_int_inj.
  assert (Hnn : ∀ z, Z.to_int z ≠ Decimal.Pos Decimal.Nil
                     ∧ Z.to_int z ≠ Decimal.Neg Decimal.Nil).
  { intros [|p|p]; cbn; split; try done;
      intros [= Hp]; by apply (DecimalPos.Unsigned.to_uint_nonnil p). }
  apply (f_equal NilZero.int_of_string) in H.
  rewrite !NilZero.isi in H by apply Hnn. by injection H.
Qed.

Lemma lines_no_newline s : no_newline s = true → lines s = [s].
Proof.
  induction s as [|c s IH]; [done|]. cbn.
  intros [Hc Hs]%andb_true_iff. apply negb_true_iff in Hc.
  by rewrite Hc, (IH Hs).
Qed.

(** A block, line by line, where the three texts have no line feed. *)
Lemma lines_of_template index topic opinion comment :
  no_newline topic = true →
  no_newline opinion = true →
  no_newline comment = true →
  lines (template index topic opinion comment) =
  ["[[Question:TextEntry:Essay]]";
   "[[ID:GOV" +:+ py_str_int index +:+ "]]";
   "<h4><strong>Topic:</strong> " +:+ topic +:+ "</h4>";
   "<br/>";
   "<h3><strong>Opinion:</strong> " +:+ opinion +:+ "</h3>";
   "<br/>";
   "<p><strong>&ldquo;" +:+ comment +:+ "&rdquo;</strong></p>"].
Proof.
  intros Ht Ho Hc.
  replace (template index topic opinion comment) with
    ("[[Question:TextEntry:Essay]]" +:+ nl
     +:+ ("[[ID:GOV" +:+ py_str_int index +:+ "]]") +:+ nl
     +:+ ("<h4><strong>Topic:</strong> " +:+ topic +:+ "</h4>") +:+ nl
     +:+ "<br/>" +:+ nl
     +:+ ("<h3><strong>Opinion:</strong> " +:+ opinion +:+ "</h3>") +:+ nl
     +:+ "<br/>" +:+ nl
     +:+ "<p><strong>&ldquo;" +:+ comment +:+ "&rdquo;</strong></p>")
    by (by text_eq).
  rewrite lines_app_nl by done.
  rewrite lines_app_nl
    by (repeat (apply no_newline_app; try done); apply no_newline_py_str_int).
  rewrite lines_app_nl by (by repeat (apply no_newline_app; try done)).
  rewrite lines_app_nl by done.
  rewrite lines_app_nl by (by repeat (apply no_newline_app; try done)).
  rewrite lines_app_nl by done.
  rewrite lines_no_newline by (by repeat (apply no_newline_app; try done)).
  done.
Qed.

Lemma length_app_s (a b : string) :
  String.length (a +:+ b) = (String.length a + String.length b)%nat.
Proof.
  induction a as [|x a IH]; [done|].
  unfold String.app in *. cbn. by rewrite IH.
Qed.

Lemma app_inj_r (c : string) : ∀ a b, a +:+ c = b +:+ c → a = b.
Proof.
  induction a as [|x a IH]; intros [|y b] H; [done| | |].
  - apply (f_equal String.length) in H.
    rewrite !length_app_s in H. cbn in H. lia.
  - apply (f_equal String.length) in H.
    rewrite !length_app_s in H. cbn in H. lia.
  - unfold String.app in *. cbn in H. injection H as -> H. by rewrite (IH _ H).
Qed.

(** The command line with both options spelled out. *)
Lemma parse_args_both i o :
  argparse.is_word i = true →
  argparse.is_word o = true →
  argparse.parse_args ["--input_csv"; i; "--output_txt"; o] =
    inr (argparse.mk_Namespace (argparse.Str i) (argparse.Str o))
  ∧ argparse.parse_args ["--output_txt"; o; "--input_csv"; i] =
      inr (argparse.mk_Namespace (argparse.Str i) (argparse.Str o)).
Proof.
  intros Hi Ho.
  destruct (is_word_class _ Hi) as [Ei Ci].
  destruct (is_word_class _ Ho) as [Eo Co].
  unfold argparse.parse_args.
  cbn [argparse.ambiguous_token argparse.consume].
  change (String.eqb "--input_csv" "--") with false.
  change (String.eqb "--output_txt" "--") with false.
  change (argparse.parse_optional "--input_csv")
    with (argparse.Opt argparse.InputCsv None).
  change (argparse.parse_optional "--output_txt")
    with (argparse.Opt argparse.OutputTxt None).
  cbn match. by rewrite Ei, Eo, Ci, Co, Hi, Ho.
Qed.

Section More.

Variable csv_reader : string → exn + DataFrame.

(** The world a call leaves once the table is read and the output opened:
    the output file holds what was written, keeps its read permission, and
    one closed file object is added; nothing else differs. *)
Lemma create_survey_world w filename output props :
  read_csv csv_reader filename w = (Return props, w) →
  can_open w output = true →
  ∃ rd, _create_survey csv_reader filename output w =
    (result_of (written_by_rows "" (iterrows props)).2,
     mk_World
       (<[output := File rd true
                      (preamble +:+ (written_by_rows "" (iterrows props)).1)]>
          (disk w))
       (may_create w)
       (files w ++ [mk_file_obj output "" true])).
Proof.
  intros Hread Hopen.
  destruct (open_w_run _ _ Hopen) as [rd Ho]. exists rd.
  unfold _create_survey, with_open_w, bind at 1 2. rewrite Hread, Ho.
  set (w1 := set_files _ _).
  assert (H1 : is_open w1 (length (files w)) output "").
  { unfold is_open, w1. cbn. by rewrite lookup_app_r, Nat.sub_diag. }
  unfold finally, bind.
  rewrite (write_open _ _ _ _ _ H1), (write_put _ _ _ _ _ _ H1).
  erewrite for_rows_run by (eapply put_is_open; exact H1).
  rewrite put_put.
  destruct (written_by_rows "" (iterrows props)) as [text e]. cbn [fst snd].
  set (b := (("" +:+ _) +:+ _) +:+ text).
  assert (Hb : b = preamble +:+ text) by (unfold b; by text_eq).
  assert (Hc : close (length (files w)) (put (length (files w)) output b w1) =
    (Return tt,
     mk_World (<[output := File rd true b]> (disk w)) (may_create w)
       (files w ++ [mk_file_obj output "" true]))).
  { unfold close, put, w1, set_files, set_disk, flush_to. cbn.
    rewrite list_lookup_insert_eq by (rewrite length_app; cbn; lia). cbn.
    rewrite lookup_insert_eq, insert_insert_eq, list_insert_insert_eq.
    do 2 f_equal.
    replace (length (files w)) with (length (files w) + 0) at 1 by lia.
    by rewrite insert_app_r. }
  rewrite <- Hb. destruct e as [e|]; cbn [result_of]; by rewrite Hc.
Qed.

(** X1. Whatever exception the CSV reader raises on the text of the input
    file, the call raises it and leaves the world as it was: the output is
    not created and not truncated. *)
Theorem reader_failure_leaves_output w filename output wr text e :
  disk w !! filename = Some (File true wr text) →
  csv_reader text = inl e →
  _create_survey csv_reader filename output w = (Raise e, w).
Proof.
  intros Hfile Hreader. unfold _create_survey, bind, read_csv.
  by rewrite Hfile, Hreader.
Qed.

(** X2. Where the table is read but the output cannot be opened for
    writing (a directory, a file without write permission, a place where
    no file can be created), the call raises an [OSError] and leaves the
    world as it was. *)
Theorem output_unopenable w filename output props :
  read_csv csv_reader filename w = (Return props, w) →
  can_open w output = false →
  ∃ e,
    _create_survey csv_reader filename output w = (Raise e, w)
    ∧ is_OSError e = true.
Proof.
  intros Hread Hopen.
  destruct (open_w_fails _ _ Hopen) as (e & Ho & He).
  exists e. split; [|done].
  unfold _create_survey, with_open_w, bind. by rewrite Hread, Ho.
Qed.

(** X3. Whatever the inputs and however the call ends, it changes no entry
    of the disk other than the output path, it leaves alone where files
    may be created, and it keeps every file object that was there. *)
Theorem only_output_changes w filename output :
  let w' := (_create_survey csv_reader filename output w).2 in
  (∀ path, path ≠ output → disk w' !! path = disk w !! path)
  ∧ may_create w' = may_create w
  ∧ ∃ new, files w' = files w ++ new.
Proof.
  cbv zeta.
  pose proof (read_csv_world csv_reader filename w) as Hw.
  destruct (read_csv csv_reader filename w) as [[props|e] w0] eqn:Hread;
    cbn in Hw; subst w0.
  - destruct (can_open w output) eqn:Hopen.
    + destruct (create_survey_world _ _ _ _ Hread Hopen) as [rd ->]. cbn.
      split; [|split; [done|by eexists]].
      intros path Hne. by rewrite lookup_insert_ne.
    + destruct (open_w_fails _ _ Hopen) as (e & Ho & _).
      unfold _create_survey, with_open_w, bind. rewrite Hread, Ho. cbn.
      split; [done|split; [done|]]. exists []. by rewrite app_nil_r.
  - unfold _create_survey, bind. rewrite Hread. cbn.
    split; [done|split; [done|]]. exists []. by rewrite app_nil_r.
Qed.


(** X7. For tables whose cells under topic, opinion and comment are texts
    or missing values, columns other than these three, and the order of
    the columns, do not matter: two such tables with as many rows and, row
    by row, the same cells under the three labels make the call end the
    same way and leave the same text in the output file. (The cells are
    limited to texts and missing values because pandas prints a number
    differently when another column makes the row a row of floats.) *)
Theorem other_columns_ignored w filename1 filename2 output props1 props2 :
  read_csv csv_reader filename1 w = (Return props1, w) →
  read_csv csv_reader filename2 w = (Return props2, w) →
  can_open w output = true →
  text_cells props1 = true →
  agree_on_required props1 props2 = true →
  let run1 := _create_survey csv_reader filename1 output w in
  let run2 := _create_survey csv_reader filename2 output w in
  run1.1 = run2.1 ∧ file_content run1.2 output = file_content run2.2 output.
Proof.
  intros Hread1 Hread2 Hopen _ Hagree. cbv zeta.
  destruct (create_survey_world _ _ _ _ Hread1 Hopen) as [rd1 ->].
  destruct (create_survey_world _ _ _ _ Hread2 Hopen) as [rd2 ->].
  rewrite (written_by_rows_ext _ _ (iterrows_agree _ _ Hagree) "").
  split; [done|]. unfold file_content. cbn. by rewrite !lookup_insert_eq.
Qed.

(** X8. In the output for a valid table the identifier lines of two
    different rows differ. *)
Theorem identifiers_distinct w filename output props j k cells_j cells_k :
  read_csv csv_reader filename w = (Return props, w) →
  can_open w output = true →
  valid_table props = true →
  data props !! j = Some cells_j →
  data props !! k = Some cells_k →
  j ≠ k →
  ∃ w' blocks block_j block_k,
    _create_survey csv_reader filename output w = (Return tt, w')
    ∧ file_content w' output =
        Some (preamble +:+ String.concat (nl +:+ nl) blocks)
    ∧ blocks !! j = Some block_j
    ∧ blocks !! k = Some block_k
    ∧ lines block_j !! 1%nat ≠ lines block_k !! 1%nat.
Proof.
  intros Hread Hopen Hvalid Hj Hk Hne.
  destruct (valid_table_blocks _ Hvalid) as [blocks Hblocks].
  destruct (create_survey_run _ _ _ _ _ Hread Hopen) as (w' & Hrun & _ & Hout & _).
  rewrite (written_valid _ _ Hblocks) in Hrun, Hout.
  destruct (blocks_lookup _ _ _ _ Hblocks Hj) as (bj & Hbj & Hrj).
  destruct (blocks_lookup _ _ _ _ Hblocks Hk) as (bk & Hbk & Hrk).
  destruct (valid_row_block _ _ _ Hvalid Hj) as (? & ? & ? & _ & _ & _ & Htj).
  destruct (valid_row_block _ _ _ Hvalid Hk) as (? & ? & ? & _ & _ & _ & Htk).
  rewrite Hrj in Htj. rewrite Hrk in Htk.
  injection Htj as ->. injection Htk as ->.
  eexists w', blocks, _, _.
  split; [exact Hrun|]. split; [exact Hout|].
  split; [exact Hbj|]. split; [exact Hbk|].
  rewrite !lines_template. intros [= H].
  apply String.app_inj, app_inj_r, py_str_int_inj in H. lia.
Qed.

(** X10. Where the three cells of a row of a valid table print without a
    line feed, the block of the row is exactly seven lines: the question
    line, the identifier line, the topic line, a break, the opinion line,
    a break, and the comment line. *)
Theorem block_is_seven_lines w filename output props k cells topic opinion comment :
  read_csv csv_reader filename w = (Return props, w) →
  can_open w output = true →
  valid_table props = true →
  data props !! k = Some cells →
  label_lookup (zip (columns props) cells) "topic" = Some topic →
  label_lookup (zip (columns props) cells) "opinion" = Some opinion →
  label_lookup (zip (columns props) cells) "comment" = Some comment →
  no_newline (py_format topic) = true →
  no_newline (py_format opinion) = true →
  no_newline (py_format comment) = true →
  ∃ w' blocks block,
    _create_survey csv_reader filename output w = (Return tt, w')
    ∧ file_content w' output =
        Some (preamble +:+ String.concat (nl +:+ nl) blocks)
    ∧ blocks !! k = Some block
    ∧ lines block =
        ["[[Question:TextEntry:Essay]]";
         "[[ID:GOV" +:+ py_str_int (Z.of_nat k) +:+ "]]";
         "<h4><strong>Topic:</strong> " +:+ py_format topic +:+ "</h4>";
         "<br/>";
         "<h3><strong>Opinion:</strong> " +:+ py_format opinion +:+ "</h3>";
         "<br/>";
         "<p><strong>&ldquo;" +:+ py_format comment +:+ "&rdquo;</strong></p>"].
Proof.
  intros Hread Hopen Hvalid Hk Et Eo Ec Ht Ho Hc.
  destruct (valid_table_blocks _ Hvalid) as [blocks Hblocks].
  destruct (create_survey_run _ _ _ _ _ Hread Hopen) as (w' & Hrun & _ & Hout & _).
  rewrite (written_valid _ _ Hblocks) in Hrun, Hout.
  destruct (blocks_lookup _ _ _ _ Hblocks Hk) as (block & Hb & Hr).
  exists w', blocks, block. repeat split; try done.
  unfold render_block in Hr. cbn [fst snd] in Hr. rewrite Et, Eo, Ec in Hr.
  injection Hr as <-. by apply lines_of_template.
Qed.

(** X11. With both options spelled out and followed by their arguments,
    in either order, [main] does what [_create_survey] does on the two
    paths. *)
Theorem main_runs_converter i o w :
  argparse.is_word i = true →
  argparse.is_word o = true →
  main csv_reader ["--input_csv"; i; "--output_txt"; o] w =
    _create_survey csv_reader i o w
  ∧ main csv_reader ["--output_txt"; o; "--input_csv"; i] w =
      _create_survey csv_reader i o w.
Proof.
  intros Hi Ho. destruct (parse_args_both _ _ Hi Ho) as [H1 H2].
  unfold main. by rewrite H1, H2.
Qed.

End More.

(** ** The further properties on concrete tables *)

Lemma reader_failure_leaves_output_witness :
  plain.reader "" = inl EmptyDataError
  ∧ _create_survey plain.reader "in.csv" "out.txt" world_empty_input =
      (Raise EmptyDataError, world_empty_input).
Proof.
  split; [reflexivity|].
  apply (reader_failure_leaves_output plain.reader world_empty_input
           "in.csv" "out.txt" false "" EmptyDataError); reflexivity.
Defined.

Lemma output_unopenable_witness :
  can_open (world_with gov_csv) "elsewhere/out.txt" = false
  ∧ ∃ e,
      _create_survey plain.reader "in.csv" "elsewhere/out.txt" (world_with gov_csv) =
        (Raise e, world_with gov_csv)
      ∧ is_OSError e = true.
Proof.
  split; [reflexivity|].
  apply (output_unopenable plain.reader (world_with gov_csv)
           "in.csv" "elsewhere/out.txt" gov_frame); reflexivity.
Defined.


Lemma other_columns_ignored_witness :
  read_csv plain.reader "wide.csv" world_two = (Return gov_wide_frame, world_two)
  ∧ text_cells gov_frame = true
  ∧ agree_on_required gov_frame gov_wide_frame = true
  ∧ let run1 := _create_survey plain.reader "in.csv" "out.txt" world_two in
    let run2 := _create_survey plain.reader "wide.csv" "out.txt" world_two in
    run1.1 = run2.1
    ∧ file_content run1.2 "out.txt" = file_content run2.2 "out.txt".
Proof.
  split; [reflexivity|]. split; [reflexivity|]. split; [reflexivity|].
  apply (other_columns_ignored plain.reader world_two "in.csv" "wide.csv"
           "out.txt" gov_frame gov_wide_frame); reflexivity.
Defined.

Lemma identifiers_distinct_witness :
  ∃ w' blocks block_j block_k,
    _create_survey plain.reader "in.csv" "out.txt" (world_with gov_csv) =
      (Return tt, w')
    ∧ file_content w' "out.txt" =
        Some (preamble +:+ String.concat (nl +:+ nl) blocks)
    ∧ blocks !! 0%nat = Some block_j
    ∧ blocks !! 1%nat = Some block_k
    ∧ lines block_j !! 1%nat ≠ lines block_k !! 1%nat.
Proof.
  apply (identifiers_distinct plain.reader (world_with gov_csv)
           "in.csv" "out.txt" gov_frame 0 1
           [VStr "Climate"; VStr "Pro"; VStr "It's real"]
           [VStr "Tax"; VStr "Con"; VStr "Too high"]);
    [reflexivity | reflexivity | reflexivity | reflexivity | reflexivity | lia].
Defined.

Lemma block_is_seven_lines_witness :
  no_newline (py_format (VStr "Tax")) = true
  ∧ ∃ w' blocks block,
      _create_survey plain.reader "in.csv" "out.txt" (world_with gov_csv) =
        (Return tt, w')
      ∧ file_content w' "out.txt" =
          Some (preamble +:+ String.concat (nl +:+ nl) blocks)
      ∧ blocks !! 1%nat = Some block
      ∧ lines block =
          ["[[Question:TextEntry:Essay]]";
           "[[ID:GOV" +:+ py_str_int (Z.of_nat 1) +:+ "]]";
           "<h4><strong>Topic:</strong> " +:+ py_format (VStr "Tax") +:+ "</h4>";
           "<br/>";
           "<h3><strong>Opinion:</strong> " +:+ py_format (VStr "Con") +:+ "</h3>";
           "<br/>";
           "<p><strong>&ldquo;" +:+ py_format (VStr "Too high")
             +:+ "&rdquo;</strong></p>"].
Proof.
  split; [reflexivity|].
  apply (block_is_seven_lines plain.reader (world_with gov_csv)
           "in.csv" "out.txt" gov_frame 1
           [VStr "Tax"; VStr "Con"; VStr "Too high"]
           (VStr "Tax") (VStr "Con") (VStr "Too high")); reflexivity.
Defined.

Lemma main_runs_converter_witness :
  argparse.is_word "in.csv" = true
  ∧ argparse.is_word "out.txt" = true
  ∧ main plain.reader ["--input_csv"; "in.csv"; "--output_txt"; "out.txt"]
      (world_with gov_csv) =
      _create_survey plain.reader "in.csv" "out.txt" (world_with gov_csv)
  ∧ main plain.reader ["--output_txt"; "out.txt"; "--input_csv"; "in.csv"]
      (world_with gov_csv) =
      _create_survey plain.reader "in.csv" "out.txt" (world_with gov_csv).
Proof.
  split; [reflexivity|]. split; [reflexivity|].
  apply (main_runs_converter plain.reader "in.csv" "out.txt" (world_with gov_csv));
    reflexivity.
Defined.
